(** * GreenGen: token rewards and administrator resolution

    A shallow embedding of
      - [src/utils/rewardUtils.ts]  ([getTokensForWasteSize],
        [updateUserTokensForReport]),
      - [src/utils/dbUtils.ts]      ([addAdminUser]),
      - [src/utils/adminUtils.ts]   ([checkUserIsAdmin]),
    together with the part of the hosted store they talk to.
    Further down: the other functions of these files
    ([addUserToAdminTable], [ensureAdminAccount], [setupAdminUsersTable]),
    [checkAdminStatus] of the event manager, and what the rewards page and
    the transaction history do with the same account and ledger
    ([getNextLevelTarget], [getTokensForNextLevel], [handleRedeemReward],
    the loop that removes duplicate transactions).

    The TypeScript functions are [async] functions that issue remote
    requests one after the other and inspect the [{ data, error }] object
    each request resolves to.  They are embedded in a small monad that
    threads the tables of the store and the trace of the requests issued,
    reads the behaviour of the network from an environment, and can throw
    (a rejected promise), which [try]/[catch] blocks intercept.

    Numbers are integers ([Z]): balances, levels and amounts are integer
    columns, far from the range where a JavaScript number loses
    precision.  Calls to [console.log] and [console.error] have no effect
    on the store or on the result and are left out. *)

From Stdlib Require Import ZArith List String Ascii Bool Lia.
From Stdlib Require Import DecimalString.
Import ListNotations.

#[local] Open Scope string_scope.
#[local] Open Scope list_scope.
#[local] Open Scope Z_scope.

(* ------------------------------------------------------------------ *)
(** ** JavaScript values the code inspects *)

Module Js.

(** [String.prototype.toLowerCase], on strings of ASCII characters: the
    letters [A]..[Z] are moved to [a]..[z], every other character is kept. *)
Definition lower_ascii (c : ascii) : ascii :=
  let n := nat_of_ascii c in
  if ((65 <=? n) && (n <=? 90))%nat then ascii_of_nat (n + 32) else c.

Fixpoint toLowerCase (s : string) : string :=
  match s with
  | EmptyString => EmptyString
  | String c rest => String (lower_ascii c) (toLowerCase rest)
  end.

(** Truthiness of a string: only the empty string is falsy. *)
Definition truthy_string (s : string) : bool :=
  negb (s =? "")%string.

(** Truthiness of a value that is either [null]/[undefined] or an object. *)
Definition truthy {A : Type} (o : option A) : bool :=
  match o with
  | Some _ => true
  | None => false
  end.

(** The values a remote procedure can hand back in [data]. *)
Inductive json : Type :=
| JNull
| JBool (b : bool)
| JNum (n : Z)
| JStr (s : string).

(** [v === true] *)
Definition strictly_true (v : json) : bool :=
  match v with
  | JBool true => true
  | _ => false
  end.

End Js.

(* ------------------------------------------------------------------ *)
(** ** The hosted store, as the client library presents it

    [@/lib/supabase] wraps the supabase-js client, a dependency of the
    repository.  What is modelled is the contract the embedded functions
    rely on: a query resolves to [{ data, error }]; [insert] adds a row;
    [update(...).eq(column, v)] rewrites the rows whose column equals [v];
    [select(...).eq(column, v).maybeSingle()] gives [null] for no row, the
    row for one, and an error for several.  The tables are lists of rows:
    nothing here assumes [user_id] to be unique. *)

Module Supabase.

Record PostgrestError : Type := { message : string }.

(** What an awaited query resolves to. *)
Record response (A : Type) : Type :=
  { data : option A; error : option PostgrestError }.

Arguments data {A} _.
Arguments error {A} _.

(** Rows.  The columns [id] and [created_at] are filled in by the store
    and never read by the embedded functions; they are left out.
    [updated_at] holds what the client wrote there, if anything. *)
Record token_transactions_row : Type :=
  { tx_user_id : string;
    amount : Z;
    description : string;
    transaction_type : string;
    source_type : string }.

Record user_tokens_row : Type :=
  { user_id : string;
    balance : Z;
    level : Z;
    updated_at : option string }.

Record admin_users_row : Type :=
  { admin_user_id : string }.

Record database : Type :=
  { token_transactions : list token_transactions_row;
    user_tokens : list user_tokens_row;
    admin_users : list admin_users_row }.

(** The session object of [supabase.auth.getUser()]. *)
Record User : Type := { id : string; email : option string }.
Record AuthData : Type := { user : option User }.

(** The requests the embedded functions send. *)
Inductive request : Type :=
| AuthGetUser
| SelectAdminUsers (uid : string)
| InsertAdminUsers (row : admin_users_row)
| RpcIsAdmin (uid : string)
| InsertTokenTransactions (row : token_transactions_row)
| SelectUserTokens (uid : string)
| InsertUserTokens (row : user_tokens_row)
| UpdateUserTokens (uid : string) (new_balance new_level : Z) (stamp : string).

(** How an awaited promise settles. *)
Inductive settled (A : Type) : Type :=
| Resolves (a : A)
| Rejects.

Arguments Resolves {A} _.
Arguments Rejects {A}.

(** What the network does to a table request: the store executes it, or
    the request resolves to an error object, or the promise rejects.  A
    request that does not go through leaves the tables as they are. *)
Inductive fault : Type :=
| Healthy
| Fails (e : PostgrestError)
| Unreachable.

(** Everything outside the tables that a call depends on. *)
Record remote : Type :=
  { auth_session : settled (option AuthData);
    is_admin_rpc : string -> settled (response Js.json);
    fault_of : request -> fault;
    clock : string }.

Record world : Type :=
  { db : database; log : list request }.

Definition logged (rq : request) (w : world) : world :=
  {| db := db w; log := log w ++ [rq] |}.

(** *** The monad of asynchronous code *)

Inductive completion (A : Type) : Type :=
| Returned (a : A)
| Threw.

Arguments Returned {A} _.
Arguments Threw {A}.

Definition async (A : Type) : Type := remote -> world -> completion A * world.

Definition ret {A : Type} (a : A) : async A :=
  fun _ w => (Returned a, w).

Definition bind {A B : Type} (m : async A) (k : A -> async B) : async B :=
  fun net w =>
    match m net w with
    | (Returned a, w') => k a net w'
    | (Threw, w') => (Threw, w')
    end.

(** [try { body } catch (err) { handler }] *)
Definition try_catch {A : Type} (body handler : async A) : async A :=
  fun net w =>
    match body net w with
    | (Returned a, w') => (Returned a, w')
    | (Threw, w') => handler net w'
    end.

Definition new_Date_toISOString : async string :=
  fun net w => (Returned (clock net), w).

Declare Scope async_scope.
Delimit Scope async_scope with async.
Notation "x <- m ;; k" := (bind m (fun x => k))
  (at level 61, m at next level, right associativity) : async_scope.

(** *** Table semantics *)

Definition ok {A : Type} (d : option A) : response A :=
  {| data := d; error := None |}.

Definition failed {A : Type} (e : PostgrestError) : response A :=
  {| data := None; error := Some e |}.

(** [.maybeSingle()]: no row gives [null], one row gives that row, several
    rows give an error. *)
Definition maybeSingle {A : Type} (rows : list A) : response A :=
  match rows with
  | [] => ok None
  | [r] => ok (Some r)
  | _ :: _ :: _ => failed {| message := "JSON object requested, multiple (or no) rows returned" |}
  end.

Definition tokens_of (uid : string) (rows : list user_tokens_row) : list user_tokens_row :=
  filter (fun r => (user_id r =? uid)%string) rows.

Definition admins_of (uid : string) (rows : list admin_users_row) : list admin_users_row :=
  filter (fun r => (admin_user_id r =? uid)%string) rows.

Arguments tokens_of : simpl never.
Arguments admins_of : simpl never.

(** [.update({ balance, level, updated_at }).eq('user_id', uid)] *)
Definition set_tokens (uid : string) (b l : Z) (stamp : string)
  (r : user_tokens_row) : user_tokens_row :=
  if (user_id r =? uid)%string
  then {| user_id := user_id r; balance := b; level := l; updated_at := Some stamp |}
  else r.

(** Sending a table request: it is logged, then settled as the network
    decides. *)
Definition send {A : Type} (rq : request)
  (run : database -> response A * database) : async (response A) :=
  fun net w =>
    match fault_of net rq with
    | Healthy =>
        let (r, d) := run (db w) in
        (Returned r, {| db := d; log := log (logged rq w) |})
    | Fails e => (Returned (failed e), logged rq w)
    | Unreachable => (Threw, logged rq w)
    end.

Definition auth_getUser : async (option AuthData) :=
  fun net w =>
    match auth_session net with
    | Resolves d => (Returned d, logged AuthGetUser w)
    | Rejects => (Threw, logged AuthGetUser w)
    end.

Definition rpc_is_admin (uid : string) : async (response Js.json) :=
  fun net w =>
    match is_admin_rpc net uid with
    | Resolves r => (Returned r, logged (RpcIsAdmin uid) w)
    | Rejects => (Threw, logged (RpcIsAdmin uid) w)
    end.

Definition insert_token_transactions (row : token_transactions_row)
  : async (response unit) :=
  send (InsertTokenTransactions row)
    (fun d => (ok None,
               {| token_transactions := token_transactions d ++ [row];
                  user_tokens := user_tokens d;
                  admin_users := admin_users d |})).

Definition select_user_tokens (uid : string) : async (response user_tokens_row) :=
  send (SelectUserTokens uid)
    (fun d => (maybeSingle (tokens_of uid (user_tokens d)), d)).

Definition insert_user_tokens (row : user_tokens_row) : async (response unit) :=
  send (InsertUserTokens row)
    (fun d => (ok None,
               {| token_transactions := token_transactions d;
                  user_tokens := user_tokens d ++ [row];
                  admin_users := admin_users d |})).

Definition update_user_tokens (uid : string) (b l : Z) (stamp : string)
  : async (response unit) :=
  send (UpdateUserTokens uid b l stamp)
    (fun d => (ok None,
               {| token_transactions := token_transactions d;
                  user_tokens := map (set_tokens uid b l stamp) (user_tokens d);
                  admin_users := admin_users d |})).

Definition select_admin_users (uid : string) : async (response admin_users_row) :=
  send (SelectAdminUsers uid)
    (fun d => (maybeSingle (admins_of uid (admin_users d)), d)).

Definition insert_admin_users (row : admin_users_row) : async (response unit) :=
  send (InsertAdminUsers row)
    (fun d => (ok None,
               {| token_transactions := token_transactions d;
                  user_tokens := user_tokens d;
                  admin_users := admin_users d ++ [row] |})).

End Supabase.

Import Js Supabase.
#[local] Open Scope async_scope.

(* ------------------------------------------------------------------ *)
(** ** src/utils/rewardUtils.ts *)

Definition getTokensForWasteSize (wasteSize : string) : Z :=
  if (wasteSize =? "small")%string then 5
  else if (wasteSize =? "medium")%string then 15
  else if (wasteSize =? "large")%string then 30
  else 0.

Definition updateUserTokensForReport (userId wasteSize reportTitle : string)
  : async bool :=
  try_catch
    (let tokenAmount := getTokensForWasteSize wasteSize in
     if tokenAmount =? 0 then ret false
     else
       tx <- insert_token_transactions
               {| tx_user_id := userId;
                  amount := tokenAmount;
                  description := "Waste report: " ++ reportTitle;
                  transaction_type := "earned";
                  source_type := "waste_report" |} ;;
       if truthy (error tx) then ret false
       else
         fetched <- select_user_tokens userId ;;
         if truthy (error fetched) then ret false
         else
           match data fetched with
           | None =>
               let newLevel := if tokenAmount >=? 50 then 2 else 1 in
               ins <- insert_user_tokens
                        {| user_id := userId;
                           balance := tokenAmount;
                           level := newLevel;
                           updated_at := None |} ;;
               if truthy (error ins) then ret false else ret true
           | Some existingTokens =>
               let newBalance := balance existingTokens + tokenAmount in
               let newLevel :=
                 if newBalance >=? 500 then 5
                 else if newBalance >=? 300 then 4
                 else if newBalance >=? 150 then 3
                 else if newBalance >=? 50 then 2
                 else 1 in
               stamp <- new_Date_toISOString ;;
               upd <- update_user_tokens userId newBalance newLevel stamp ;;
               if truthy (error upd) then ret false else ret true
           end)
    (ret false).

(* ------------------------------------------------------------------ *)
(** ** src/utils/dbUtils.ts *)

Definition addAdminUser (userId : string) : async bool :=
  try_catch
    (existing <- select_admin_users userId ;;
     if truthy (error existing) then ret false
     else if truthy (data existing) then ret true
     else
       ins <- insert_admin_users {| admin_user_id := userId |} ;;
       if truthy (error ins) then ret false else ret true)
    (ret false).

(* ------------------------------------------------------------------ *)
(** ** src/utils/adminUtils.ts *)

Section AdminUtils.

(** [ADMIN_EMAIL] is imported from [@/constants/auth]. *)
Variable ADMIN_EMAIL : string.

(** [authData?.user?.email?.toLowerCase() === ADMIN_EMAIL.toLowerCase()] *)
Definition email_is_admin (authData : option AuthData) : bool :=
  match authData with
  | Some d =>
      match user d with
      | Some u =>
          match email u with
          | Some e => (toLowerCase e =? toLowerCase ADMIN_EMAIL)%string
          | None => false
          end
      | None => false
      end
  | None => false
  end.

(** A [try] block that contains a [return] yields [Some v] when it
    returns [v] and [None] when control falls out of it. *)
Definition checkUserIsAdmin (userId : string) : async bool :=
  if negb (truthy_string userId) then ret false
  else
    try_catch
      (authData <- auth_getUser ;;
       if email_is_admin authData then ret true
       else
         byTable <-
           try_catch
             (found <- select_admin_users userId ;;
              if negb (truthy (error found)) && truthy (data found)
              then ret (Some true)
              else ret None)
             (ret (Some (email_is_admin authData))) ;;
         match byTable with
         | Some answer => ret answer
         | None =>
             byRpc <-
               try_catch
                 (called <- rpc_is_admin userId ;;
                  if negb (truthy (error called))
                     && match data called with
                        | Some v => strictly_true v
                        | None => false
                        end
                  then ret (Some true)
                  else ret None)
                 (ret None) ;;
             match byRpc with
             | Some answer => ret answer
             | None => ret false
             end
         end)
      (ret false).

End AdminUtils.

Arguments email_is_admin : simpl never.

(* ------------------------------------------------------------------ *)
(** ** Vocabulary of the specification *)

(** The size categories of the policy table. *)
Definition recognized (wasteSize : string) : Prop :=
  wasteSize = "small" \/ wasteSize = "medium" \/ wasteSize = "large".

(** The level thresholds, read top-down, first match wins:
    [>=500 -> 5], [>=300 -> 4], [>=150 -> 3], [>=50 -> 2], else [1]. *)
Definition level_threshold (b : Z) : Z :=
  if b >=? 500 then 5
  else if b >=? 300 then 4
  else if b >=? 150 then 3
  else if b >=? 50 then 2
  else 1.

(** The stored level agrees with the stored balance. *)
Definition level_consistent (r : user_tokens_row) : Prop :=
  level r = level_threshold (balance r).

(** A network on which every table request goes through. *)
Definition all_healthy (net : remote) : Prop :=
  forall rq, fault_of net rq = Healthy.

(** Requests other than the ledger insert. *)
Definition not_ledger_insert (rq : request) : Prop :=
  match rq with
  | InsertTokenTransactions _ => False
  | _ => True
  end.

(** The three checks of the administrator resolution, read off the
    environment and the tables. *)

(** Check 1: the session is fetched and its email is the administrator's,
    up to letter case. *)
Definition session_email_matches (adminEmail : string) (net : remote) : bool :=
  match auth_session net with
  | Resolves d => email_is_admin adminEmail d
  | Rejects => false
  end.

(** What the membership lookup settles to. *)
Definition membership_lookup (uid : string) (net : remote) (w : world)
  : settled (response admin_users_row) :=
  match fault_of net (SelectAdminUsers uid) with
  | Healthy => Resolves (maybeSingle (admins_of uid (admin_users (db w))))
  | Fails e => Resolves (failed e)
  | Unreachable => Rejects
  end.

(** Check 2: the lookup gives a row and no error. *)
Definition membership_found (uid : string) (net : remote) (w : world) : bool :=
  match membership_lookup uid net w with
  | Resolves r =>
      match error r, data r with
      | None, Some _ => true
      | _, _ => false
      end
  | Rejects => false
  end.

(** Check 3: the remote procedure gives exactly [true] and no error. *)
Definition rpc_grants (uid : string) (net : remote) : bool :=
  match is_admin_rpc net uid with
  | Resolves r =>
      match error r, data r with
      | None, Some (JBool true) => true
      | _, _ => false
      end
  | Rejects => false
  end.

(** *** Concrete scenarios *)

Definition empty_db : database :=
  {| token_transactions := []; user_tokens := []; admin_users := [] |}.

Definition fresh_world : world := {| db := empty_db; log := [] |}.

Definition anonymous_net : remote :=
  {| auth_session := Resolves (Some {| user := None |});
     is_admin_rpc := fun _ => Resolves (ok (Some (JBool false)));
     fault_of := fun _ => Healthy;
     clock := "2025-06-01T12:00:00.000Z" |}.

(** A world in which user [u1] already holds 45 tokens at level 1. *)
Definition world_with_45 : world :=
  {| db := {| token_transactions := [];
              user_tokens := [ {| user_id := "u1"; balance := 45; level := 1;
                                  updated_at := None |} ];
              admin_users := [] |};
     log := [] |}.

(** A network on which the ledger insert resolves to an error. *)
Definition ledger_down_net : remote :=
  {| auth_session := Resolves (Some {| user := None |});
     is_admin_rpc := fun _ => Resolves (ok (Some (JBool false)));
     fault_of := fun rq =>
       match rq with
       | InsertTokenTransactions _ => Fails {| message := "permission denied" |}
       | _ => Healthy
       end;
     clock := "2025-06-01T12:00:00.000Z" |}.

(** Administrator scenarios. *)
Definition sample_admin_email : string := "Admin@GreenGen.example".

Definition admin_session : option AuthData :=
  Some {| user := Some {| id := "a1"; email := Some "ADMIN@greengen.example" |} |}.

Definition visitor_session : option AuthData :=
  Some {| user := Some {| id := "u1"; email := Some "visitor@greengen.example" |} |}.

(** The administrator is signed in; every request goes through. *)
Definition admin_net : remote :=
  {| auth_session := Resolves admin_session;
     is_admin_rpc := fun _ => Resolves (ok (Some (JBool false)));
     fault_of := fun _ => Healthy;
     clock := "2025-06-01T12:00:00.000Z" |}.

(** A visitor is signed in; every request goes through and the remote
    procedure answers [false]. *)
Definition visitor_net : remote :=
  {| auth_session := Resolves visitor_session;
     is_admin_rpc := fun _ => Resolves (ok (Some (JBool false)));
     fault_of := fun _ => Healthy;
     clock := "2025-06-01T12:00:00.000Z" |}.

(** A visitor is signed in; the membership lookup resolves to an error and
    the remote procedure answers [true]. *)
Definition lookup_error_net : remote :=
  {| auth_session := Resolves visitor_session;
     is_admin_rpc := fun _ => Resolves (ok (Some (JBool true)));
     fault_of := fun rq =>
       match rq with
       | SelectAdminUsers _ => Fails {| message := "permission denied" |}
       | _ => Healthy
       end;
     clock := "2025-06-01T12:00:00.000Z" |}.

(** As above, but the membership lookup throws. *)
Definition lookup_throws_net : remote :=
  {| auth_session := Resolves visitor_session;
     is_admin_rpc := fun _ => Resolves (ok (Some (JBool true)));
     fault_of := fun rq =>
       match rq with
       | SelectAdminUsers _ => Unreachable
       | _ => Healthy
       end;
     clock := "2025-06-01T12:00:00.000Z" |}.

(** A visitor is signed in; the membership lookup resolves to an error and
    the call to the remote procedure throws. *)
Definition rpc_throws_net : remote :=
  {| auth_session := Resolves visitor_session;
     is_admin_rpc := fun _ => Rejects;
     fault_of := fun rq =>
       match rq with
       | SelectAdminUsers _ => Fails {| message := "permission denied" |}
       | _ => Healthy
       end;
     clock := "2025-06-01T12:00:00.000Z" |}.

(** A world in which [u1] is a member of the administrators. *)
Definition world_with_member : world :=
  {| db := {| token_transactions := []; user_tokens := [];
              admin_users := [ {| admin_user_id := "u1" |} ] |};
     log := [] |}.

(* ------------------------------------------------------------------ *)
(** ** More of JavaScript *)

Module JsText.

(** [`${n}`] for an integer [n]: its decimal digits, with a leading minus
    sign when negative. *)
Definition Number_toString (n : Z) : string :=
  NilZero.string_of_int (Z.to_int n).

(** [s.includes(sub)] *)
Fixpoint includes (s sub : string) : bool :=
  if String.prefix sub s then true
  else
    match s with
    | EmptyString => false
    | String _ rest => includes rest sub
    end.

End JsText.

Import JsText.

(* ------------------------------------------------------------------ *)
(** ** Several reports in a row *)

(** The reports of one user, submitted one after the other with
    [updateUserTokensForReport]; each report is a size and a title.  The
    answers of the calls are collected. *)
Fixpoint awardEach (userId : string) (reports : list (string * string))
  : async (list bool) :=
  match reports with
  | [] => ret []
  | (wasteSize, reportTitle) :: rest =>
      first <- updateUserTokensForReport userId wasteSize reportTitle ;;
      others <- awardEach userId rest ;;
      ret (first :: others)
  end.

(** The ledger record of a report. *)
Definition ledger_entry (userId : string) (report : string * string)
  : token_transactions_row :=
  {| tx_user_id := userId;
     amount := getTokensForWasteSize (fst report);
     description := "Waste report: " ++ snd report;
     transaction_type := "earned";
     source_type := "waste_report" |}.

(** The tokens of a list of reports. *)
Definition total_tokens (reports : list (string * string)) : Z :=
  fold_right (fun report acc => getTokensForWasteSize (fst report) + acc) 0 reports.

(** The sum of the amounts of a list of ledger records. *)
Definition ledger_sum (rows : list token_transactions_row) : Z :=
  fold_right (fun row acc => amount row + acc) 0 rows.

(** The ledger records of a user. *)
Definition ledger_of (uid : string) (rows : list token_transactions_row)
  : list token_transactions_row :=
  filter (fun r => (tx_user_id r =? uid)%string) rows.

(** The balance the store holds for a user: that of the user's row, and
    nothing when there is none. *)
Definition stored_balance (uid : string) (d : database) : Z :=
  match tokens_of uid (user_tokens d) with
  | r :: _ => balance r
  | [] => 0
  end.

(* ------------------------------------------------------------------ *)
(** ** The rewards page and the transaction history

    [Rewards] (pages) and [TransactionHistory] (components): what they
    compute from the account and from the ledger rows they have
    fetched. *)

Module Rewards.

Record UserTokens : Type := { balance : Z; level : Z }.

Record TokenTransaction : Type :=
  { id : string;
    amount : Z;
    description : string;
    transaction_type : string;
    created_at : string }.

Definition getNextLevelTarget (userTokens : option UserTokens) : Z :=
  match userTokens with
  | None => 0
  | Some t =>
      if level t =? 1 then 50
      else if level t =? 2 then 150
      else if level t =? 3 then 300
      else if level t =? 4 then 500
      else 0
  end.

Definition getTokensForNextLevel (userTokens : option UserTokens) : Z :=
  match userTokens with
  | None => 0
  | Some t =>
      let nextLevel := getNextLevelTarget userTokens in
      if nextLevel =? 0 then 0 else nextLevel - balance t
  end.

(** [`${description}-${amount}-${transaction_type}`] *)
Definition transaction_key (t : TokenTransaction) : string :=
  description t ++ "-" ++ Number_toString (amount t) ++ "-" ++ transaction_type t.

(** [seen.has(key)], the set [seen] being kept as the list of its
    elements. *)
Definition has (seen : list string) (key : string) : bool :=
  existsb (String.eqb key) seen.

(** One turn of the loop over the fetched rows:
    [if (!seen.has(key)) { seen.add(key); uniqueTransactions.push(t) }]. *)
Definition keep_first (state : list string * list TokenTransaction)
  (t : TokenTransaction) : list string * list TokenTransaction :=
  let (seen, unique) := state in
  let key := transaction_key t in
  if has seen key then (seen, unique) else (key :: seen, unique ++ [t]).

(** The loop of [fetchAllTransactions] and of [fetchTransactions]. *)
Definition uniqueTransactions (data : list TokenTransaction)
  : list TokenTransaction :=
  snd (fold_left keep_first data ([], [])).

(** What the rewards page shows: the query stops at 20 rows, and the
    first three of the rows kept are shown. *)
Definition recent (data : list TokenTransaction) : list TokenTransaction :=
  firstn 3 (uniqueTransactions (firstn 20 data)).

End Rewards.

(** A fetched row shows a ledger record. *)
Definition shows (t : Rewards.TokenTransaction) (row : token_transactions_row)
  : Prop :=
  Rewards.amount t = amount row
  /\ Rewards.description t = description row
  /\ Rewards.transaction_type t = transaction_type row.

(** The account as a page has fetched it. *)
Definition as_fetched (r : user_tokens_row) : Rewards.UserTokens :=
  {| Rewards.balance := balance r; Rewards.level := level r |}.

(* ------------------------------------------------------------------ *)
(** ** Pages and the calls beyond the two utilities

    The components and the remaining utilities also sign up and sign in,
    probe and create the [admin_users] table, record redemptions, show
    toasts and set component state.  They are embedded in the same kind of
    monad, over a page: the store of the utilities, the table of
    redemptions, the calls made, the toasts shown and the state of the
    components. *)

Module Page.

Inductive toast_kind : Type := Plain | Success | Failure.

(** [toast(title, { description })], [toast.success], [toast.error]; icons
    are left out. *)
Record toast : Type :=
  { kind : toast_kind; title : string; detail : option string }.

(** The error of the probe of [admin_users], with its code. *)
Record ProbeError : Type := { probe_message : string; probe_code : string }.

Record AuthError : Type := { auth_message : string }.

Record redeemed_rewards_row : Type :=
  { redemption_id : string;
    redeemed_by : string;
    redeemed_reward : string;
    redemption_status : string }.

(** [interface RewardItem] *)
Record RewardItem : Type :=
  { reward_id : string;
    reward_title : string;
    reward_description : string;
    token_cost : Z;
    image_url : string;
    available : option bool }.

(** The calls that are not requests of [Supabase.request].  The ledger
    insert of a redemption also writes [source_id], a column the ledger
    rows of the store do not carry: it is kept in the call. *)
Inductive call : Type :=
| SignUp (email password : string)
| SignInWithPassword (email password : string)
| ProbeAdminUsers
| RpcCreateAdminUsersTable
| RpcExecSql
| InsertRedeemedRewards (uid reward status : string)
| InsertSpent (row : token_transactions_row) (source_id : string)
| UpdateBalance (uid : string) (new_balance : Z) (stamp : string).

(** Everything outside the page that a call depends on. *)
Record outside : Type :=
  { tables : remote;
    signUp_settles : string -> string -> settled (option AuthError);
    signIn_settles : string -> string -> settled (option AuthData);
    probe_settles : settled (option ProbeError);
    create_table_settles : settled (option PostgrestError);
    exec_sql_settles : settled (option PostgrestError);
    write_fault : call -> fault;
    generated_id : string }.

(** State of [AdminEventManager]: [isAdmin] and [error]. *)
Record manager_state : Type :=
  { isAdmin : option bool; manager_error : option string }.

(** State of [Rewards]: [userTokens], [transactions] and
    [loading.redemption]. *)
Record rewards_state : Type :=
  { userTokens : option Rewards.UserTokens;
    transactions : list Rewards.TokenTransaction;
    redeeming : bool }.

Record page : Type :=
  { store : world;
    redeemed_rewards : list redeemed_rewards_row;
    calls : list call;
    toasts : list toast;
    manager : manager_state;
    rewards : rewards_state }.

Definition action (A : Type) : Type := outside -> page -> completion A * page.

Definition pure {A : Type} (a : A) : action A :=
  fun _ p => (Returned a, p).

Definition and_then {A B : Type} (m : action A) (k : A -> action B) : action B :=
  fun o p =>
    match m o p with
    | (Returned a, p') => k a o p'
    | (Threw, p') => (Threw, p')
    end.

(** [try { body } catch (err) { handler }] *)
Definition caught {A : Type} (body handler : action A) : action A :=
  fun o p =>
    match body o p with
    | (Returned a, p') => (Returned a, p')
    | (Threw, p') => handler o p'
    end.

(** [throw] *)
Definition throw {A : Type} : action A :=
  fun _ p => (Threw, p).

Declare Scope page_scope.
Delimit Scope page_scope with page.
Notation "x <~ m ;; k" := (and_then m (fun x => k))
  (at level 61, m at next level, right associativity) : page_scope.

(** A utility of the store, called from a page. *)
Definition on_store {A : Type} (m : async A) : action A :=
  fun o p =>
    let (c, w) := m (tables o) (store p) in
    (c, {| store := w;
           redeemed_rewards := redeemed_rewards p;
           calls := calls p;
           toasts := toasts p;
           manager := manager p;
           rewards := rewards p |}).

Definition note (c : call) (p : page) : page :=
  {| store := store p;
     redeemed_rewards := redeemed_rewards p;
     calls := calls p ++ [c];
     toasts := toasts p;
     manager := manager p;
     rewards := rewards p |}.

(** A call whose answer the outside decides. *)
Definition ask {A : Type} (c : call) (answer : outside -> settled A) : action A :=
  fun o p =>
    match answer o with
    | Resolves a => (Returned a, note c p)
    | Rejects => (Threw, note c p)
    end.

Definition show (k : toast_kind) (t : string) (d : option string) : action unit :=
  fun _ p =>
    (Returned tt,
     {| store := store p;
        redeemed_rewards := redeemed_rewards p;
        calls := calls p;
        toasts := toasts p ++ [ {| kind := k; title := t; detail := d |} ];
        manager := manager p;
        rewards := rewards p |}).

Definition set_manager (f : manager_state -> manager_state) : action unit :=
  fun _ p =>
    (Returned tt,
     {| store := store p;
        redeemed_rewards := redeemed_rewards p;
        calls := calls p;
        toasts := toasts p;
        manager := f (manager p);
        rewards := rewards p |}).

Definition set_rewards (f : rewards_state -> rewards_state) : action unit :=
  fun _ p =>
    (Returned tt,
     {| store := store p;
        redeemed_rewards := redeemed_rewards p;
        calls := calls p;
        toasts := toasts p;
        manager := manager p;
        rewards := f (rewards p) |}).

Definition setIsAdmin (b : bool) : action unit :=
  set_manager (fun m => {| isAdmin := Some b; manager_error := manager_error m |}).

Definition setError (e : option string) : action unit :=
  set_manager (fun m => {| isAdmin := isAdmin m; manager_error := e |}).

Definition setUserTokens (t : Rewards.UserTokens) : action unit :=
  set_rewards (fun r => {| userTokens := Some t;
                           transactions := transactions r;
                           redeeming := redeeming r |}).

Definition setTransactions
  (f : list Rewards.TokenTransaction -> list Rewards.TokenTransaction)
  : action unit :=
  set_rewards (fun r => {| userTokens := userTokens r;
                           transactions := f (transactions r);
                           redeeming := redeeming r |}).

Definition setLoadingRedemption (b : bool) : action unit :=
  set_rewards (fun r => {| userTokens := userTokens r;
                           transactions := transactions r;
                           redeeming := b |}).

Definition get_rewards : action rewards_state :=
  fun _ p => (Returned (rewards p), p).

Definition new_Date_toISOString : action string :=
  fun o p => (Returned (clock (tables o)), p).

(** A write to a table: noted, then settled as the outside decides; a
    write that does not go through changes nothing. *)
Definition write {A : Type} (c : call) (run : outside -> page -> A * page)
  (refused : PostgrestError -> A) : action A :=
  fun o p =>
    match write_fault o c with
    | Healthy => let (a, p') := run o (note c p) in (Returned a, p')
    | Fails e => (Returned (refused e), note c p)
    | Unreachable => (Threw, note c p)
    end.

(** [.from('redeemed_rewards').insert({...}).select().single()]: the row
    comes back with the id the store has generated. *)
Definition insert_redeemed_rewards (uid reward status : string)
  : action (response redeemed_rewards_row) :=
  write (InsertRedeemedRewards uid reward status)
    (fun o p =>
       let row := {| redemption_id := generated_id o;
                     redeemed_by := uid;
                     redeemed_reward := reward;
                     redemption_status := status |} in
       (ok (Some row),
        {| store := store p;
           redeemed_rewards := redeemed_rewards p ++ [row];
           calls := calls p;
           toasts := toasts p;
           manager := manager p;
           rewards := rewards p |}))
    failed.

Definition with_db (d : database) (p : page) : page :=
  {| store := {| db := d; log := log (store p) |};
     redeemed_rewards := redeemed_rewards p;
     calls := calls p;
     toasts := toasts p;
     manager := manager p;
     rewards := rewards p |}.

(** [.from('token_transactions').insert({..., source_id })] *)
Definition insert_spent (row : token_transactions_row) (source_id : string)
  : action (response unit) :=
  write (InsertSpent row source_id)
    (fun _ p =>
       let d := db (store p) in
       (ok None,
        with_db {| token_transactions := token_transactions d ++ [row];
                   user_tokens := user_tokens d;
                   admin_users := admin_users d |} p))
    failed.

(** [.update({ balance, updated_at }).eq('user_id', uid)]: the level is
    not among the columns written. *)
Definition set_balance (uid : string) (b : Z) (stamp : string)
  (r : user_tokens_row) : user_tokens_row :=
  if (user_id r =? uid)%string
  then {| user_id := user_id r; balance := b; level := level r;
          updated_at := Some stamp |}
  else r.

Definition update_balance (uid : string) (b : Z) (stamp : string)
  : action (response unit) :=
  write (UpdateBalance uid b stamp)
    (fun _ p =>
       let d := db (store p) in
       (ok None,
        with_db {| token_transactions := token_transactions d;
                   user_tokens := map (set_balance uid b stamp) (user_tokens d);
                   admin_users := admin_users d |} p))
    failed.

End Page.

Import Page.
#[local] Open Scope page_scope.

(* ------------------------------------------------------------------ *)
(** ** src/utils/adminUtils.ts, continued *)

Definition addUserToAdminTable (userId : string) : action bool :=
  if negb (truthy_string userId) then pure false
  else
    caught
      (on_store (addAdminUser userId))
      (_ <~ show Failure "Failed to add user as admin" None ;;
       pure false).

Definition signUp (email password : string) : action (option AuthError) :=
  ask (SignUp email password) (fun o => signUp_settles o email password).

Definition signInWithPassword (email password : string)
  : action (option AuthData) :=
  ask (SignInWithPassword email password)
    (fun o => signIn_settles o email password).

Section AdminAccount.

(** [ADMIN_EMAIL] and [ADMIN_PASSWORD] are imported from
    [@/constants/auth]. *)
Variables ADMIN_EMAIL ADMIN_PASSWORD : string.

(** The block that follows the sign-up in both branches of
    [ensureAdminAccount]: sign in, and add the user signed in to the
    administrators; whatever fails in it is caught and dropped. *)
Definition add_signed_in_admin : action unit :=
  caught
    (userData <~ signInWithPassword ADMIN_EMAIL ADMIN_PASSWORD ;;
     match userData with
     | Some d =>
         match user d with
         | Some u => _ <~ on_store (addAdminUser (id u)) ;; pure tt
         | None => pure tt
         end
     | None => pure tt
     end)
    (pure tt).

Definition ensureAdminAccount : action bool :=
  caught
    (signUpError <~ signUp ADMIN_EMAIL ADMIN_PASSWORD ;;
     match signUpError with
     | Some e =>
         if includes (auth_message e) "already registered"
         then _ <~ add_signed_in_admin ;; pure true
         else pure false
     | None => _ <~ add_signed_in_admin ;; pure true
     end)
    (pure false).

(** [checkAdminStatus] of [AdminEventManager]; [user] comes from
    [useAuth]. *)
Definition checkAdminStatus (user : option User) : action unit :=
  match user with
  | None => pure tt
  | Some u =>
      caught
        (isUserAdmin <~ on_store (checkUserIsAdmin ADMIN_EMAIL (id u)) ;;
         _ <~ setIsAdmin isUserAdmin ;;
         if negb isUserAdmin
         then setError
                (Some "You don't have admin privileges to manage events. Please contact an administrator.")
         else
           _ <~ setError None ;;
           _ <~ addUserToAdminTable (id u) ;;
           pure tt)
        (setError (Some "Error checking admin status. Please try again."))
  end.

End AdminAccount.

(* ------------------------------------------------------------------ *)
(** ** src/utils/dbUtils.ts, continued *)

(** The error of the probe says that the table is missing. *)
Definition table_is_missing (e : ProbeError) : bool :=
  includes (probe_message e) "does not exist"
  || includes (probe_message e) "relation"
  || (probe_code e =? "42P01")%string.

(** [setupAdminUsersTable]: the statement sent to [exec_sql] is a fixed
    text; what creating the table does to the store is not modelled. *)
Definition setupAdminUsersTable : action unit :=
  caught
    (tableCheckError <~ ask ProbeAdminUsers probe_settles ;;
     match tableCheckError with
     | Some e =>
         if table_is_missing e
         then
           createError <~ ask RpcCreateAdminUsersTable create_table_settles ;;
           match createError with
           | Some _ => _ <~ ask RpcExecSql exec_sql_settles ;; pure tt
           | None => pure tt
           end
         else pure tt
     | None => pure tt
     end)
    (pure tt).

(* ------------------------------------------------------------------ *)
(** ** The rewards page: redeeming *)

(** [t.description === n.description && t.amount === n.amount &&
    t.transaction_type === n.transaction_type] *)
Definition same_transaction (n t : Rewards.TokenTransaction) : bool :=
  (Rewards.description t =? Rewards.description n)%string
  && (Rewards.amount t =? Rewards.amount n)
  && (Rewards.transaction_type t =? Rewards.transaction_type n)%string.

Definition handleRedeemReward (user : option User) (reward : RewardItem)
  : action unit :=
  state <~ get_rewards ;;
  match user, userTokens state with
  | Some u, Some tokens =>
      if Rewards.balance tokens <? token_cost reward
      then
        show Plain "Not enough tokens"
          (Some ("You need "
                 ++ Number_toString (token_cost reward - Rewards.balance tokens)
                 ++ " more tokens to redeem this reward.")%string)
      else
        _ <~ setLoadingRedemption true ;;
        _ <~ caught
               (redemption <~ insert_redeemed_rewards (id u) (reward_id reward)
                                "pending" ;;
                if truthy (error redemption) then throw
                else
                  match data redemption with
                  | None => throw
                  | Some redemptionData =>
                      spent <~ insert_spent
                                 {| tx_user_id := id u;
                                    amount := token_cost reward;
                                    description := "Redeemed: " ++ reward_title reward;
                                    transaction_type := "spent";
                                    source_type := "reward_redemption" |}
                                 (redemption_id redemptionData) ;;
                      if truthy (error spent) then throw
                      else
                        stamp <~ Page.new_Date_toISOString ;;
                        updated <~ update_balance (id u)
                                     (Rewards.balance tokens - token_cost reward)
                                     stamp ;;
                        if truthy (error updated) then throw
                        else
                          _ <~ setUserTokens
                                 {| Rewards.balance :=
                                      Rewards.balance tokens - token_cost reward;
                                    Rewards.level := Rewards.level tokens |} ;;
                          created <~ Page.new_Date_toISOString ;;
                          let newTransaction :=
                            {| Rewards.id := redemption_id redemptionData;
                               Rewards.amount := token_cost reward;
                               Rewards.description :=
                                 "Redeemed: " ++ reward_title reward;
                               Rewards.transaction_type := "spent";
                               Rewards.created_at := created |} in
                          _ <~ setTransactions
                                 (fun prev =>
                                    firstn 3
                                      (newTransaction
                                       :: filter
                                            (fun t => negb (same_transaction newTransaction t))
                                            prev)) ;;
                          show Plain "Reward redeemed successfully!"
                            (Some ("You've redeemed " ++ reward_title reward
                                   ++ ". It will be delivered to your address.")%string)
                  end)
               (show Plain "Failed to redeem reward"
                  (Some "Please try again later.")) ;;
        setLoadingRedemption false
  | _, _ => pure tt
  end.

(** What the sign-up says about the administrator account: it was
    created, or it is reported as already registered. *)
Definition sign_up_accepted (s : settled (option AuthError)) : bool :=
  match s with
  | Resolves None => true
  | Resolves (Some e) => includes (auth_message e) "already registered"
  | Rejects => false
  end.

(** The probe reports a missing table. *)
Definition probe_finds_table_missing (o : outside) : Prop :=
  exists e, probe_settles o = Resolves (Some e) /\ table_is_missing e = true.

(** Two pages differ at most in the store. *)
Definition same_but_store (p p' : page) : Prop :=
  redeemed_rewards p' = redeemed_rewards p
  /\ calls p' = calls p
  /\ toasts p' = toasts p
  /\ manager p' = manager p
  /\ rewards p' = rewards p.

(** An outside on which every write of a page goes through. *)
Definition writes_go_through (o : outside) : Prop :=
  forall c, write_fault o c = Healthy.

(** The redemption row, the ledger record and the listed transaction of a
    redemption. *)
Definition redemption_row (o : outside) (u : User) (reward : RewardItem)
  : redeemed_rewards_row :=
  {| redemption_id := generated_id o;
     redeemed_by := id u;
     redeemed_reward := reward_id reward;
     redemption_status := "pending" |}.

Definition spent_entry (u : User) (reward : RewardItem) : token_transactions_row :=
  {| tx_user_id := id u;
     amount := token_cost reward;
     description := "Redeemed: " ++ reward_title reward;
     transaction_type := "spent";
     source_type := "reward_redemption" |}.

Definition not_enough_toast (tokens : Rewards.UserTokens) (reward : RewardItem)
  : toast :=
  {| kind := Plain;
     title := "Not enough tokens";
     detail :=
       Some ("You need "
             ++ Number_toString (token_cost reward - Rewards.balance tokens)
             ++ " more tokens to redeem this reward.")%string |}.

Definition failed_toast : toast :=
  {| kind := Plain;
     title := "Failed to redeem reward";
     detail := Some "Please try again later." |}.

(** The same page over another store. *)
Definition over_store (w : world) (p : page) : page :=
  {| store := w;
     redeemed_rewards := redeemed_rewards p;
     calls := calls p;
     toasts := toasts p;
     manager := manager p;
     rewards := rewards p |}.

(** The rows whose key has not occurred before, by recursion on the
    rows: the loop of [uniqueTransactions] computes this list. *)
Fixpoint first_seen (seen : list string) (data : list Rewards.TokenTransaction)
  : list Rewards.TokenTransaction :=
  match data with
  | [] => []
  | t :: rest =>
      if Rewards.has seen (Rewards.transaction_key t) then first_seen seen rest
      else t :: first_seen (Rewards.transaction_key t :: seen) rest
  end.

(** *** More scenarios *)

(** A page on which nothing has happened yet. *)
Definition blank_page (w : world) : page :=
  {| store := w;
     redeemed_rewards := [];
     calls := [];
     toasts := [];
     manager := {| isAdmin := None; manager_error := None |};
     rewards := {| userTokens := None; transactions := []; redeeming := false |} |}.

(** An outside on which every call goes through: the sign-up succeeds and
    the sign-in gives the administrator [a1]. *)
Definition calm_outside (net : remote) : outside :=
  {| tables := net;
     signUp_settles := fun _ _ => Resolves None;
     signIn_settles := fun _ _ => Resolves admin_session;
     probe_settles := Resolves None;
     create_table_settles := Resolves None;
     exec_sql_settles := Resolves None;
     write_fault := fun _ => Healthy;
     generated_id := "r1" |}.

(** As above, but the [admin_users] table is reported missing and the
    procedure that creates it fails. *)
Definition missing_table_outside : outside :=
  {| tables := admin_net;
     signUp_settles := fun _ _ => Resolves None;
     signIn_settles := fun _ _ => Resolves admin_session;
     probe_settles :=
       Resolves (Some {| probe_message := "relation public.admin_users does not exist";
                         probe_code := "42P01" |});
     create_table_settles := Resolves (Some {| message := "function not found" |});
     exec_sql_settles := Resolves None;
     write_fault := fun _ => Healthy;
     generated_id := "r1" |}.

(** An outside on which the ledger insert of a redemption is refused. *)
Definition spent_refused_outside : outside :=
  {| tables := anonymous_net;
     signUp_settles := fun _ _ => Resolves None;
     signIn_settles := fun _ _ => Resolves admin_session;
     probe_settles := Resolves None;
     create_table_settles := Resolves None;
     exec_sql_settles := Resolves None;
     write_fault := fun c =>
       match c with
       | InsertSpent _ _ => Fails {| message := "permission denied" |}
       | _ => Healthy
       end;
     generated_id := "r1" |}.

(** An outside on which the balance update of a redemption is refused. *)
Definition update_refused_outside : outside :=
  {| tables := anonymous_net;
     signUp_settles := fun _ _ => Resolves None;
     signIn_settles := fun _ _ => Resolves admin_session;
     probe_settles := Resolves None;
     create_table_settles := Resolves None;
     exec_sql_settles := Resolves None;
     write_fault := fun c =>
       match c with
       | UpdateBalance _ _ _ => Fails {| message := "permission denied" |}
       | _ => Healthy
       end;
     generated_id := "r1" |}.

(** The user [u1] holds 60 tokens at level 2, and the rewards page has
    fetched that account. *)
Definition world_with_60 : world :=
  {| db := {| token_transactions := [];
              user_tokens := [ {| user_id := "u1"; balance := 60; level := 2;
                                  updated_at := None |} ];
              admin_users := [] |};
     log := [] |}.

Definition rewards_page_60 : page :=
  {| store := world_with_60;
     redeemed_rewards := [];
     calls := [];
     toasts := [];
     manager := {| isAdmin := None; manager_error := None |};
     rewards := {| userTokens := Some {| Rewards.balance := 60; Rewards.level := 2 |};
                   transactions := [];
                   redeeming := false |} |}.

Definition visitor : User :=
  {| id := "u1"; email := Some "visitor@greengen.example" |}.

Definition administrator : User :=
  {| id := "a1"; email := Some "ADMIN@greengen.example" |}.

Definition water_bottle : RewardItem :=
  {| reward_id := "rw1";
     reward_title := "Water bottle";
     reward_description := "A bottle";
     token_cost := 20;
     image_url := "";
     available := Some true |}.

Definition gift_card : RewardItem :=
  {| reward_id := "rw2";
     reward_title := "Gift card";
     reward_description := "A card";
     token_cost := 100;
     image_url := "";
     available := Some true |}.

(** Three rows as a page fetches them, newest first; the first two show
    the same description, amount and kind. *)
Definition beach_row_new : Rewards.TokenTransaction :=
  {| Rewards.id := "t3"; Rewards.amount := 5;
     Rewards.description := "Waste report: Beach cleanup";
     Rewards.transaction_type := "earned";
     Rewards.created_at := "2025-06-03T09:00:00.000Z" |}.

Definition beach_row_old : Rewards.TokenTransaction :=
  {| Rewards.id := "t2"; Rewards.amount := 5;
     Rewards.description := "Waste report: Beach cleanup";
     Rewards.transaction_type := "earned";
     Rewards.created_at := "2025-06-02T09:00:00.000Z" |}.

Definition dump_row : Rewards.TokenTransaction :=
  {| Rewards.id := "t1"; Rewards.amount := 30;
     Rewards.description := "Waste report: Dump site";
     Rewards.transaction_type := "earned";
     Rewards.created_at := "2025-06-01T09:00:00.000Z" |}.

Definition fetched_rows : list Rewards.TokenTransaction :=
  [beach_row_new; beach_row_old; dump_row].

(** A network on which the account table cannot be read. *)
Definition account_down_net : remote :=
  {| auth_session := Resolves (Some {| user := None |});
     is_admin_rpc := fun _ => Resolves (ok (Some (JBool false)));
     fault_of := fun rq =>
       match rq with
       | SelectUserTokens _ => Fails {| message := "timeout" |}
       | _ => Healthy
       end;
     clock := "2025-06-01T12:00:00.000Z" |}.

(** Three reports of one user. *)
Definition three_reports : list (string * string) :=
  [ ("small", "Beach cleanup"); ("large", "Dump site"); ("medium", "Park litter") ].

(* ------------------------------------------------------------------ *)
(** ** Reward accrual: auxiliary facts *)

Tactic Notation "run_async" :=
  unfold try_catch, bind, new_Date_toISOString,
    insert_token_transactions, select_user_tokens, insert_user_tokens,
    update_user_tokens, select_admin_users, insert_admin_users,
    auth_getUser, rpc_is_admin, send, logged, ret.

Tactic Notation "run_async" "in" hyp(H) :=
  unfold try_catch, bind, new_Date_toISOString,
    insert_token_transactions, select_user_tokens, insert_user_tokens,
    update_user_tokens, select_admin_users, insert_admin_users,
    auth_getUser, rpc_is_admin, send, logged, ret in H.

(** Case analysis on what the network does to the next request of a run
    recorded in [H]. *)
Ltac next_request H :=
  match type of H with
  | context [fault_of ?net ?rq] =>
      destruct (fault_of net rq) eqn:?; cbn in H; try discriminate H
  end.

Lemma recognized_tokens (ws : string) :
  recognized ws ->
  getTokensForWasteSize ws = 5 \/ getTokensForWasteSize ws = 15
  \/ getTokensForWasteSize ws = 30.
Proof.
  intros [-> | [-> | ->]]; cbv; auto.
Qed.

Lemma unrecognized_tokens (ws : string) :
  ~ recognized ws -> getTokensForWasteSize ws = 0.
Proof.
  intros H. unfold getTokensForWasteSize.
  destruct (String.eqb_spec ws "small") as [E | _];
    [ exfalso; apply H; left; exact E | ].
  destruct (String.eqb_spec ws "medium") as [E | _];
    [ exfalso; apply H; right; left; exact E | ].
  destruct (String.eqb_spec ws "large") as [E | _];
    [ exfalso; apply H; right; right; exact E | reflexivity ].
Qed.

Lemma level_threshold_range (b : Z) : 1 <= level_threshold b <= 5.
Proof.
  unfold level_threshold.
  repeat match goal with |- context [?x >=? ?y] => destruct (x >=? y) end; lia.
Qed.

Lemma level_threshold_monotone (a b : Z) :
  a <= b -> level_threshold a <= level_threshold b.
Proof.
  intros Hab. unfold level_threshold. rewrite !Z.geb_leb.
  repeat match goal with
         | |- context [?x <=? ?y] => destruct (Z.leb_spec x y)
         end; lia.
Qed.

Lemma tokens_of_app (uid : string) (l1 l2 : list user_tokens_row) :
  tokens_of uid (l1 ++ l2) = tokens_of uid l1 ++ tokens_of uid l2.
Proof. apply filter_app. Qed.

Lemma tokens_of_set (uid : string) (b l : Z) (stamp : string)
  (rows : list user_tokens_row) :
  tokens_of uid (map (set_tokens uid b l stamp) rows)
  = map (set_tokens uid b l stamp) (tokens_of uid rows).
Proof.
  unfold tokens_of.
  induction rows as [| r rows IH]; [reflexivity |].
  cbn [map filter]. unfold set_tokens at 1.
  destruct (user_id r =? uid)%string eqn:E; cbn [user_id].
  - rewrite E. cbn [map]. f_equal. exact IH.
  - rewrite E. exact IH.
Qed.

Lemma tokens_of_owner (uid : string) (rows : list user_tokens_row)
  (r : user_tokens_row) :
  In r (tokens_of uid rows) -> user_id r = uid.
Proof.
  unfold tokens_of. rewrite filter_In. intros [_ E].
  apply String.eqb_eq. exact E.
Qed.

(** The two ways a call can succeed: the account is created, or the one
    account of the user is updated. *)
Lemma award_success (uid ws title : string) (net : remote) (w w' : world) :
  recognized ws ->
  updateUserTokensForReport uid ws title net w = (Returned true, w') ->
  let t := getTokensForWasteSize ws in
  (tokens_of uid (user_tokens (db w)) = []
   /\ user_tokens (db w')
      = user_tokens (db w)
        ++ [ {| user_id := uid; balance := t; level := 1; updated_at := None |} ])
  \/ (exists acct,
        tokens_of uid (user_tokens (db w)) = [acct]
        /\ user_tokens (db w')
           = map (set_tokens uid (balance acct + t)
                    (level_threshold (balance acct + t)) (clock net))
               (user_tokens (db w))).
Proof.
  intros Hws Hrun t.
  unfold updateUserTokensForReport in Hrun.
  fold t in Hrun.
  assert (Ht : t = 5 \/ t = 15 \/ t = 30) by (apply recognized_tokens; exact Hws).
  assert (Hz : (t =? 0) = false) by (apply Z.eqb_neq; lia).
  assert (Hlt : (t >=? 50) = false) by (rewrite Z.geb_leb; apply Z.leb_gt; lia).
  rewrite Hz, Hlt in Hrun. clear Hz Hlt.
  run_async in Hrun.
  do 2 next_request Hrun.
  destruct (tokens_of uid (user_tokens (db w))) as [| acct [| ? ?]] eqn:Hrows;
    cbn in Hrun; try discriminate.
  - next_request Hrun.
    left. split; [reflexivity |]. inversion Hrun; reflexivity.
  - next_request Hrun.
    right. exists acct. split; [reflexivity |].
    inversion Hrun; reflexivity.
Qed.

(** On a network that lets every request through, and with at most one
    account row for the user, an award for a recognized size succeeds. *)
Lemma award_goes_through (uid ws title : string) (net : remote) (w : world) :
  recognized ws ->
  all_healthy net ->
  (List.length (tokens_of uid (user_tokens (db w))) <= 1)%nat ->
  exists w', updateUserTokensForReport uid ws title net w = (Returned true, w').
Proof.
  intros Hws Hnet Hone.
  unfold updateUserTokensForReport.
  assert (Ht : getTokensForWasteSize ws = 5 \/ getTokensForWasteSize ws = 15
               \/ getTokensForWasteSize ws = 30)
    by (apply recognized_tokens; exact Hws).
  assert (Hz : (getTokensForWasteSize ws =? 0) = false)
    by (apply Z.eqb_neq; lia).
  rewrite Hz. run_async. rewrite !Hnet. cbn. rewrite Hnet. cbn.
  destruct (tokens_of uid (user_tokens (db w))) as [| acct [| ? ?]];
    cbn in Hone |- *; [ | | lia ];
    rewrite Hnet; cbn; eexists; reflexivity.
Qed.

(** A successful award adds its record to the ledger and its tokens to
    the stored balance. *)
Lemma award_success_effect (uid ws title : string) (net : remote) (w w' : world) :
  recognized ws ->
  updateUserTokensForReport uid ws title net w = (Returned true, w') ->
  token_transactions (db w')
  = token_transactions (db w) ++ [ledger_entry uid (ws, title)]
  /\ (List.length (tokens_of uid (user_tokens (db w'))) = 1)%nat
  /\ stored_balance uid (db w')
     = stored_balance uid (db w) + getTokensForWasteSize ws.
Proof.
  intros Hws Hrun. split.
  - unfold updateUserTokensForReport in Hrun.
    assert (Hz : (getTokensForWasteSize ws =? 0) = false).
    { apply Z.eqb_neq.
      destruct (recognized_tokens ws Hws) as [E | [E | E]]; lia. }
    rewrite Hz in Hrun. run_async in Hrun.
    do 2 next_request Hrun.
    destruct (tokens_of uid (user_tokens (db w))) as [| acct [| ? ?]];
      cbn in Hrun; try discriminate Hrun;
      next_request Hrun; injection Hrun as <-; reflexivity.
  - destruct (award_success uid ws title net w w' Hws Hrun)
      as [[Hnone Hdb] | (acct & Hsingle & Hdb)];
      unfold stored_balance; rewrite Hdb.
    + rewrite tokens_of_app, Hnone.
      unfold tokens_of. cbn [filter user_id app].
      rewrite String.eqb_refl. cbn. split; [reflexivity | lia].
    + assert (Hown : user_id acct = uid).
      { apply (tokens_of_owner uid (user_tokens (db w))).
        rewrite Hsingle. left. reflexivity. }
      rewrite tokens_of_set, Hsingle. cbn [map].
      unfold set_tokens. rewrite Hown, String.eqb_refl.
      split; reflexivity.
Qed.

(** For a recognized size the ledger insert is the first request of the
    call, whatever the network does. *)
Lemma award_first_request (uid ws title : string) (net : remote) (w : world) :
  recognized ws ->
  exists (res : completion bool) (w' : world) (rest : list request),
    updateUserTokensForReport uid ws title net w = (res, w')
    /\ log w'
       = log w ++ InsertTokenTransactions (ledger_entry uid (ws, title)) :: rest.
Proof.
  intros Hws. unfold updateUserTokensForReport, ledger_entry. cbn [fst snd].
  assert (Hz : (getTokensForWasteSize ws =? 0) = false).
  { apply Z.eqb_neq. destruct (recognized_tokens ws Hws) as [E | [E | E]]; lia. }
  rewrite Hz. run_async.
  destruct (fault_of net (InsertTokenTransactions _)); cbn;
    [ | eexists _, _, []; split; reflexivity
      | eexists _, _, []; split; reflexivity ].
  destruct (fault_of net (SelectUserTokens uid)); cbn;
    [ | eexists _, _, _; split; [reflexivity |]; cbn;
        rewrite <- !app_assoc; reflexivity
      | eexists _, _, _; split; [reflexivity |]; cbn;
        rewrite <- !app_assoc; reflexivity ].
  destruct (tokens_of uid (user_tokens (db w))) as [| acct [| ? ?]]; cbn.
  - destruct (fault_of net (InsertUserTokens _)); cbn;
      eexists _, _, _; (split; [reflexivity |]); cbn;
      rewrite <- !app_assoc; reflexivity.
  - destruct (fault_of net (UpdateUserTokens _ _ _ _)); cbn;
      eexists _, _, _; (split; [reflexivity |]); cbn;
      rewrite <- !app_assoc; reflexivity.
  - eexists _, _, _; split; [reflexivity |]; cbn;
      rewrite <- !app_assoc; reflexivity.
Qed.

(* ------------------------------------------------------------------ *)
(** ** Reward accrual: the properties *)

(** C1. The policy table, for every call.  A call with [small], [medium]
    or [large] awards exactly 5, 15 or 30 tokens: that is the value of
    [getTokensForWasteSize], the amount of the ledger insert the call
    sends first, and, whenever the call returns [true], the amount of the
    record the ledger gains and the growth of the stored balance; and the
    call does return [true] on a network that lets every request through
    with at most one account row of the user.  Every other size string is
    worth 0, and a call with such a size returns [false] and leaves the
    store and the request trace exactly as they were (nothing is sent, so
    no transaction is inserted and no account row is created or
    changed). *)
Theorem award_policy_table :
  (forall (ws : string) (t : Z),
      In (ws, t) [("small", 5); ("medium", 15); ("large", 30)] ->
      getTokensForWasteSize ws = t
      /\ forall (uid title : string) (net : remote) (w : world),
           let entry :=
             {| tx_user_id := uid; amount := t;
                description := "Waste report: " ++ title;
                transaction_type := "earned"; source_type := "waste_report" |} in
           exists (res : completion bool) (w' : world) (rest : list request),
             updateUserTokensForReport uid ws title net w = (res, w')
             /\ log w' = log w ++ InsertTokenTransactions entry :: rest
             /\ (res = Returned true ->
                 token_transactions (db w')
                 = token_transactions (db w) ++ [entry]
                 /\ stored_balance uid (db w') = stored_balance uid (db w) + t)
             /\ (all_healthy net ->
                 (List.length (tokens_of uid (user_tokens (db w))) <= 1)%nat ->
                 res = Returned true))
  /\ forall ws : string,
       ~ recognized ws ->
       getTokensForWasteSize ws = 0
       /\ forall (uid title : string) (net : remote) (w : world),
            updateUserTokensForReport uid ws title net w = (Returned false, w).
Proof.
  split.
  - intros ws t Hin.
    assert (Hws : recognized ws /\ getTokensForWasteSize ws = t).
    { destruct Hin as [E | [E | [E | []]]]; injection E as <- <-;
        (split; [unfold recognized; auto | reflexivity]). }
    destruct Hws as [Hws Ht]. split; [exact Ht |].
    intros uid title net w entry.
    destruct (award_first_request uid ws title net w Hws)
      as (res & w' & rest & Hrun & Hlog).
    assert (Hentry : ledger_entry uid (ws, title) = entry).
    { unfold ledger_entry, entry. cbn [fst snd]. rewrite Ht. reflexivity. }
    rewrite Hentry in Hlog.
    exists res, w', rest. split; [exact Hrun |]. split; [exact Hlog |]. split.
    + intros ->.
      destruct (award_success_effect uid ws title net w w' Hws Hrun)
        as (Hledger & _ & Hbalance).
      rewrite Hentry in Hledger. rewrite Ht in Hbalance.
      split; assumption.
    + intros Hnet Hone.
      destruct (award_goes_through uid ws title net w Hws Hnet Hone)
        as [w'' Hgoes].
      rewrite Hrun in Hgoes. injection Hgoes as -> _. reflexivity.
  - intros ws Hother. split.
    + apply unrecognized_tokens; assumption.
    + intros uid title net w. unfold updateUserTokensForReport.
      rewrite (unrecognized_tokens ws) by assumption.
      reflexivity.
Qed.

Lemma award_policy_table_witness :
  (exists (w' : world) (rest : list request),
      updateUserTokensForReport "u1" "medium" "Park litter" anonymous_net
        world_with_45 = (Returned true, w')
      /\ log w'
         = log world_with_45
           ++ InsertTokenTransactions
                {| tx_user_id := "u1"; amount := 15;
                   description := "Waste report: " ++ "Park litter";
                   transaction_type := "earned";
                   source_type := "waste_report" |} :: rest
      /\ token_transactions (db w')
         = token_transactions (db world_with_45)
           ++ [ {| tx_user_id := "u1"; amount := 15;
                   description := "Waste report: " ++ "Park litter";
                   transaction_type := "earned";
                   source_type := "waste_report" |} ]
      /\ stored_balance "u1" (db w')
         = stored_balance "u1" (db world_with_45) + 15)
  /\ ~ recognized ""
  /\ getTokensForWasteSize "" = 0
  /\ updateUserTokensForReport "u1" "" "x" anonymous_net world_with_45
     = (Returned false, world_with_45).
Proof.
  destruct award_policy_table as [Htable Hother].
  split.
  - destruct (Htable "medium" 15) as [_ Hcall];
      [right; left; reflexivity |].
    destruct (Hcall "u1" "Park litter" anonymous_net world_with_45)
      as (res & w' & rest & Hrun & Hlog & Heffect & Hgoes).
    assert (Hres : res = Returned true).
    { apply Hgoes; [intros rq; reflexivity | vm_compute; lia]. }
    subst res. destruct (Heffect eq_refl) as [Hledger Hbalance].
    exists w', rest. repeat split; assumption.
  - assert (H : ~ recognized "")
      by (intros [E | [E | E]]; discriminate E).
    split; [exact H |].
    destruct (Hother "" H) as [Hzero Hnoop].
    split; [exact Hzero | apply Hnoop].
Defined.

(** C2. When an account row of the user exists with balance [b], a
    successful award leaves exactly one row for the user, whose balance is
    [b + tokens] and whose level is the threshold function of that new
    balance. *)
Theorem existing_account_updated
  (uid ws title : string) (net : remote) (w w' : world) (acct : user_tokens_row) :
  recognized ws ->
  In acct (user_tokens (db w)) ->
  user_id acct = uid ->
  updateUserTokensForReport uid ws title net w = (Returned true, w') ->
  tokens_of uid (user_tokens (db w'))
  = [ {| user_id := uid;
         balance := balance acct + getTokensForWasteSize ws;
         level := level_threshold (balance acct + getTokensForWasteSize ws);
         updated_at := Some (clock net) |} ].
Proof.
  intros Hws Hin Hown Hrun.
  assert (Hmine : In acct (tokens_of uid (user_tokens (db w)))).
  { unfold tokens_of. apply filter_In. split; [exact Hin |].
    apply String.eqb_eq. exact Hown. }
  destruct (award_success uid ws title net w w' Hws Hrun)
    as [[Hnone _] | (acct0 & Hone & Hdb)].
  - rewrite Hnone in Hmine. destruct Hmine.
  - rewrite Hone in Hmine. destruct Hmine as [<- | []].
    rewrite Hdb, tokens_of_set, Hone. cbn [map].
    unfold set_tokens. rewrite Hown, String.eqb_refl. reflexivity.
Qed.

Lemma existing_account_updated_witness :
  tokens_of "u1"
    (user_tokens (db (snd (updateUserTokensForReport "u1" "medium" "Park litter"
                             anonymous_net world_with_45))))
  = [ {| user_id := "u1"; balance := 45 + getTokensForWasteSize "medium";
         level := level_threshold (45 + getTokensForWasteSize "medium");
         updated_at := Some (clock anonymous_net) |} ].
Proof.
  apply (existing_account_updated "u1" "medium" "Park litter" anonymous_net
           world_with_45 _
           {| user_id := "u1"; balance := 45; level := 1; updated_at := None |}).
  - right; left; reflexivity.
  - left; reflexivity.
  - reflexivity.
  - reflexivity.
Defined.

(** C3. When the user has no account row, a successful award appends one
    row for the user whose balance is the token award and whose level is
    the threshold function of that initial balance. *)
Theorem new_account_created
  (uid ws title : string) (net : remote) (w w' : world) :
  recognized ws ->
  tokens_of uid (user_tokens (db w)) = [] ->
  updateUserTokensForReport uid ws title net w = (Returned true, w') ->
  let row := {| user_id := uid;
                balance := getTokensForWasteSize ws;
                level := level_threshold (getTokensForWasteSize ws);
                updated_at := None |} in
  user_tokens (db w') = user_tokens (db w) ++ [row]
  /\ tokens_of uid (user_tokens (db w')) = [row].
Proof.
  intros Hws Hnone Hrun row.
  assert (Hlevel : level_threshold (getTokensForWasteSize ws) = 1).
  { destruct (recognized_tokens ws Hws) as [-> | [-> | ->]]; reflexivity. }
  destruct (award_success uid ws title net w w' Hws Hrun)
    as [[_ Hdb] | (acct0 & Hone & _)].
  - subst row. rewrite Hlevel, Hdb. split; [reflexivity |].
    rewrite tokens_of_app, Hnone. unfold tokens_of. cbn [filter user_id app].
    rewrite String.eqb_refl. reflexivity.
  - rewrite Hnone in Hone. discriminate Hone.
Qed.

Lemma new_account_created_witness :
  let w' := snd (updateUserTokensForReport "u1" "small" "Beach cleanup"
                   anonymous_net fresh_world) in
  let row := {| user_id := "u1"; balance := getTokensForWasteSize "small";
                level := level_threshold (getTokensForWasteSize "small");
                updated_at := None |} in
  user_tokens (db w') = user_tokens (db fresh_world) ++ [row]
  /\ tokens_of "u1" (user_tokens (db w')) = [row].
Proof.
  apply (new_account_created "u1" "small" "Beach cleanup" anonymous_net
           fresh_world).
  - left; reflexivity.
  - reflexivity.
  - reflexivity.
Defined.

(** C5. When the insert of the ledger record does not go through, the
    call returns [false]; the only request sent is that insert, so the
    account table is neither read nor written, and the store is exactly
    as it was before the call. *)
Theorem failed_ledger_write_aborts
  (uid ws title : string) (net : remote) (w : world) :
  recognized ws ->
  fault_of net
    (InsertTokenTransactions
       {| tx_user_id := uid; amount := getTokensForWasteSize ws;
          description := "Waste report: " ++ title;
          transaction_type := "earned"; source_type := "waste_report" |})
  <> Healthy ->
  exists w',
    updateUserTokensForReport uid ws title net w = (Returned false, w')
    /\ db w' = db w
    /\ log w'
       = log w ++
         [ InsertTokenTransactions
             {| tx_user_id := uid; amount := getTokensForWasteSize ws;
                description := "Waste report: " ++ title;
                transaction_type := "earned"; source_type := "waste_report" |} ].
Proof.
  intros Hws Hfault.
  unfold updateUserTokensForReport.
  assert (Hz : (getTokensForWasteSize ws =? 0) = false).
  { apply Z.eqb_neq. destruct (recognized_tokens ws Hws) as [E | [E | E]]; lia. }
  rewrite Hz. run_async.
  destruct (fault_of net (InsertTokenTransactions _)) eqn:E.
  - exfalso. apply Hfault. reflexivity.
  - cbn. eexists. repeat split.
  - cbn. eexists. repeat split.
Qed.

Lemma failed_ledger_write_aborts_witness :
  exists w',
    updateUserTokensForReport "u1" "large" "Dump site" ledger_down_net
      world_with_45 = (Returned false, w')
    /\ db w' = db world_with_45
    /\ log w'
       = log world_with_45 ++
         [ InsertTokenTransactions
             {| tx_user_id := "u1"; amount := getTokensForWasteSize "large";
                description := "Waste report: " ++ "Dump site";
                transaction_type := "earned"; source_type := "waste_report" |} ].
Proof.
  apply (failed_ledger_write_aborts "u1" "large" "Dump site" ledger_down_net
           world_with_45).
  - right; right; reflexivity.
  - cbn. discriminate.
Defined.

(** C8. After every successful award, on the path that creates the
    account and on the path that updates it, the stored level of the
    user's row is the threshold function of its stored balance, and rows
    that agreed with their balance before still do; the threshold function
    takes values between 1 and 5, never decreases when the balance grows,
    and maps 49, 50, 149, 150, 300, 500 to 1, 2, 2, 3, 4, 5. *)
Theorem level_follows_balance :
  (forall (uid ws title : string) (net : remote) (w w' : world),
      recognized ws ->
      updateUserTokensForReport uid ws title net w = (Returned true, w') ->
      (exists r, tokens_of uid (user_tokens (db w')) = [r] /\ level_consistent r)
      /\ ((forall r, In r (user_tokens (db w)) -> level_consistent r) ->
          forall r, In r (user_tokens (db w')) -> level_consistent r))
  /\ (forall b : Z, 1 <= level_threshold b <= 5)
  /\ (forall a b : Z, a <= b -> level_threshold a <= level_threshold b)
  /\ level_threshold 49 = 1 /\ level_threshold 50 = 2
  /\ level_threshold 149 = 2 /\ level_threshold 150 = 3
  /\ level_threshold 300 = 4 /\ level_threshold 500 = 5.
Proof.
  split; [| split; [exact level_threshold_range |
            split; [exact level_threshold_monotone | repeat split]]].
  intros uid ws title net w w' Hws Hrun.
  assert (Hlevel : level_threshold (getTokensForWasteSize ws) = 1).
  { destruct (recognized_tokens ws Hws) as [-> | [-> | ->]]; reflexivity. }
  destruct (award_success uid ws title net w w' Hws Hrun)
    as [[Hnone Hdb] | (acct & Hone & Hdb)]; rewrite Hdb.
  - split.
    + eexists. split.
      * rewrite tokens_of_app, Hnone. unfold tokens_of.
        cbn [filter user_id app]. rewrite String.eqb_refl. reflexivity.
      * unfold level_consistent. cbn [level balance]. symmetry. exact Hlevel.
    + intros Hall r Hin. apply in_app_or in Hin.
      destruct Hin as [Hin | [<- | []]]; [apply Hall; exact Hin |].
      unfold level_consistent. cbn [level balance]. symmetry. exact Hlevel.
  - assert (Hown : user_id acct = uid).
    { apply (tokens_of_owner uid (user_tokens (db w))).
      rewrite Hone. left. reflexivity. }
    split.
    + eexists. split.
      * rewrite tokens_of_set, Hone. cbn [map]. reflexivity.
      * unfold set_tokens. rewrite Hown, String.eqb_refl.
        unfold level_consistent. reflexivity.
    + intros Hall r Hin. apply in_map_iff in Hin.
      destruct Hin as (r0 & <- & Hin0). unfold set_tokens.
      destruct (user_id r0 =? uid)%string.
      * unfold level_consistent. reflexivity.
      * apply Hall. exact Hin0.
Qed.

Lemma level_follows_balance_witness :
  exists r,
    tokens_of "u1"
      (user_tokens (db (snd (updateUserTokensForReport "u1" "medium" "Park litter"
                               anonymous_net world_with_45)))) = [r]
    /\ level_consistent r.
Proof.
  destruct level_follows_balance as [Hinv _].
  apply (Hinv "u1" "medium" "Park litter" anonymous_net world_with_45).
  - right; left; reflexivity.
  - reflexivity.
Defined.

(** C9. For every recognized size the call sends exactly one ledger
    insert, first of all its requests, carrying the user, the token award
    as amount, the description ["Waste report: " ++ reportTitle], the kind
    [earned] and the source type [waste_report]; when the insert goes
    through, the ledger grows by exactly that record, otherwise it is
    unchanged.  A [small] report titled "Beach cleanup" of a new user
    leaves one [earned] transaction of amount 5 whose description carries
    the title, and an account of balance 5 at level 1. *)
Theorem award_ledger_record :
  (forall (uid ws title : string) (net : remote) (w : world),
      recognized ws ->
      let entry :=
        {| tx_user_id := uid; amount := getTokensForWasteSize ws;
           description := "Waste report: " ++ title;
           transaction_type := "earned"; source_type := "waste_report" |} in
      exists res w' rest,
        updateUserTokensForReport uid ws title net w = (res, w')
        /\ log w' = log w ++ InsertTokenTransactions entry :: rest
        /\ Forall not_ledger_insert rest
        /\ (fault_of net (InsertTokenTransactions entry) = Healthy ->
            token_transactions (db w') = token_transactions (db w) ++ [entry])
        /\ (fault_of net (InsertTokenTransactions entry) <> Healthy ->
            token_transactions (db w') = token_transactions (db w)))
  /\ updateUserTokensForReport "u1" "small" "Beach cleanup" anonymous_net
       fresh_world
     = (Returned true,
        {| db :=
             {| token_transactions :=
                  [ {| tx_user_id := "u1"; amount := 5;
                       description := "Waste report: Beach cleanup";
                       transaction_type := "earned";
                       source_type := "waste_report" |} ];
                user_tokens :=
                  [ {| user_id := "u1"; balance := 5; level := 1;
                       updated_at := None |} ];
                admin_users := [] |};
           log :=
             [ InsertTokenTransactions
                 {| tx_user_id := "u1"; amount := 5;
                    description := "Waste report: Beach cleanup";
                    transaction_type := "earned";
                    source_type := "waste_report" |};
               SelectUserTokens "u1";
               InsertUserTokens
                 {| user_id := "u1"; balance := 5; level := 1;
                    updated_at := None |} ] |}).
Proof.
  split; [| reflexivity].
  intros uid ws title net w Hws entry.
  unfold updateUserTokensForReport.
  assert (Hz : (getTokensForWasteSize ws =? 0) = false).
  { apply Z.eqb_neq. destruct (recognized_tokens ws Hws) as [E | [E | E]]; lia. }
  rewrite Hz. fold entry. run_async.
  destruct (fault_of net (InsertTokenTransactions entry)) eqn:Hledger; cbn.
  2, 3: exists (Returned false); eexists; exists [];
        (split; [reflexivity |]); cbn;
        repeat split; [constructor | discriminate].
  destruct (fault_of net (SelectUserTokens uid)); cbn.
  2, 3: exists (Returned false); eexists; exists [SelectUserTokens uid];
        (split; [reflexivity |]); cbn; rewrite <- app_assoc;
        repeat split; [repeat constructor | intros H; contradiction H; reflexivity].
  destruct (tokens_of uid (user_tokens (db w))) as [| acct [| ? ?]]; cbn.
  - destruct (fault_of net (InsertUserTokens _)); cbn;
      eexists; eexists; eexists;
      (split; [reflexivity |]); cbn; rewrite <- !app_assoc;
      (split; [reflexivity |]);
      repeat split; try (repeat constructor);
      intros H; contradiction H; reflexivity.
  - destruct (fault_of net (UpdateUserTokens _ _ _ _)); cbn;
      eexists; eexists; eexists;
      (split; [reflexivity |]); cbn; rewrite <- !app_assoc;
      (split; [reflexivity |]);
      repeat split; try (repeat constructor);
      intros H; contradiction H; reflexivity.
  - exists (Returned false); eexists; exists [SelectUserTokens uid];
      (split; [reflexivity |]); cbn; rewrite <- app_assoc;
      repeat split; [repeat constructor | intros H; contradiction H; reflexivity].
Qed.

Lemma award_ledger_record_witness :
  exists res w' rest,
    updateUserTokensForReport "u2" "large" "Riverbank" anonymous_net
      world_with_45 = (res, w')
    /\ log w'
       = log world_with_45 ++
         InsertTokenTransactions
           {| tx_user_id := "u2"; amount := getTokensForWasteSize "large";
              description := "Waste report: " ++ "Riverbank";
              transaction_type := "earned"; source_type := "waste_report" |}
         :: rest
    /\ Forall not_ledger_insert rest
    /\ (fault_of anonymous_net
          (InsertTokenTransactions
             {| tx_user_id := "u2"; amount := getTokensForWasteSize "large";
                description := "Waste report: " ++ "Riverbank";
                transaction_type := "earned"; source_type := "waste_report" |})
        = Healthy ->
        token_transactions (db w')
        = token_transactions (db world_with_45) ++
          [ {| tx_user_id := "u2"; amount := getTokensForWasteSize "large";
               description := "Waste report: " ++ "Riverbank";
               transaction_type := "earned"; source_type := "waste_report" |} ])
    /\ (fault_of anonymous_net
          (InsertTokenTransactions
             {| tx_user_id := "u2"; amount := getTokensForWasteSize "large";
                description := "Waste report: " ++ "Riverbank";
                transaction_type := "earned"; source_type := "waste_report" |})
        <> Healthy ->
        token_transactions (db w') = token_transactions (db world_with_45)).
Proof.
  destruct award_ledger_record as [Hgeneral _].
  apply (Hgeneral "u2" "large" "Riverbank" anonymous_net world_with_45).
  right; right; reflexivity.
Defined.

(* ------------------------------------------------------------------ *)
(** ** Administrator resolution *)

Lemma guard_passes (uid : string) :
  uid <> "" -> negb (truthy_string uid) = false.
Proof.
  intros H. unfold truthy_string.
  destruct (String.eqb_spec uid ""); [contradiction | reflexivity].
Qed.

(** No failure of a collaborator escapes [checkUserIsAdmin]. *)
Lemma checkUserIsAdmin_never_throws
  (adminEmail uid : string) (net : remote) (w : world) :
  exists answer w', checkUserIsAdmin adminEmail uid net w = (Returned answer, w').
Proof.
  unfold checkUserIsAdmin.
  destruct (negb (truthy_string uid)); [eexists _, _; reflexivity |].
  run_async.
  destruct (auth_session net) as [d |]; [| eexists _, _; reflexivity].
  destruct (email_is_admin adminEmail d) eqn:Hmail;
    [eexists _, _; reflexivity |].
  destruct (fault_of net (SelectAdminUsers uid)); cbn;
    [ destruct (maybeSingle _) as [[?|] [?|]]; cbn | |
      rewrite ?Hmail; eexists _, _; reflexivity ];
    try (eexists _, _; reflexivity);
    destruct (is_admin_rpc net uid) as [[[[| [|] | |]|] [?|]] |]; cbn;
    eexists _, _; reflexivity.
Qed.

(** A membership lookup that throws ends the resolution: the remote
    procedure is not consulted. *)
Lemma lookup_throw_skips_rpc
  (adminEmail uid : string) (net : remote) (w : world) (d : option AuthData) :
  uid <> "" ->
  auth_session net = Resolves d ->
  email_is_admin adminEmail d = false ->
  fault_of net (SelectAdminUsers uid) = Unreachable ->
  checkUserIsAdmin adminEmail uid net w
  = (Returned false,
     {| db := db w; log := (log w ++ [AuthGetUser]) ++ [SelectAdminUsers uid] |}).
Proof.
  intros Hid Hsession Hmail Hlookup.
  unfold checkUserIsAdmin. rewrite (guard_passes uid Hid).
  run_async. rewrite Hsession. cbn. rewrite Hmail. cbn.
  rewrite Hlookup. reflexivity.
Qed.

(** When the email check is negative and the membership lookup settles
    without a positive answer, the remote procedure decides. *)
Lemma resolution_reaches_rpc
  (adminEmail uid : string) (net : remote) (w : world)
  (d : option AuthData) (r : response admin_users_row) :
  uid <> "" ->
  auth_session net = Resolves d ->
  email_is_admin adminEmail d = false ->
  membership_lookup uid net w = Resolves r ->
  membership_found uid net w = false ->
  checkUserIsAdmin adminEmail uid net w
  = (Returned (rpc_grants uid net),
     {| db := db w;
        log := log w ++ [AuthGetUser; SelectAdminUsers uid; RpcIsAdmin uid] |}).
Proof.
  intros Hid Hsession Hmail Hlookup Hfound.
  unfold membership_found in Hfound. rewrite Hlookup in Hfound.
  unfold membership_lookup in Hlookup.
  unfold checkUserIsAdmin, rpc_grants. rewrite (guard_passes uid Hid).
  run_async. rewrite Hsession. cbn. rewrite Hmail. cbn.
  destruct (fault_of net (SelectAdminUsers uid)); cbn;
    [ | | discriminate Hlookup ];
    injection Hlookup as <-;
    [ destruct (maybeSingle _) as [[?|] [?|]]; cbn in Hfound |- *;
      try discriminate Hfound | ];
    rewrite <- !app_assoc; cbn;
    destruct (is_admin_rpc net uid) as [[[[| [|] | |]|] [?|]] |]; reflexivity.
Qed.

(** C4, as the code has it.  For a non-empty [userId] whose session is
    fetched without a throw, the three checks are made in order and the
    first positive one ends the resolution:
    - the email of the session is the administrator's up to letter case:
      [true], whatever the tables hold, and nothing else is requested;
    - otherwise the membership lookup gives a row and no error: [true],
      and the remote procedure is not called;
    - otherwise, the lookup not having thrown, the remote procedure gives
      exactly [true] and no error: [true];
    - and when none of the three checks is positive the answer is
      [false].
    The tables are never written. *)
Theorem isAdmin_resolution
  (adminEmail uid : string) (net : remote) (w : world) :
  uid <> "" ->
  (forall d,
      auth_session net = Resolves d ->
      email_is_admin adminEmail d = true ->
      checkUserIsAdmin adminEmail uid net w
      = (Returned true, {| db := db w; log := log w ++ [AuthGetUser] |}))
  /\ (forall d,
         auth_session net = Resolves d ->
         email_is_admin adminEmail d = false ->
         membership_found uid net w = true ->
         checkUserIsAdmin adminEmail uid net w
         = (Returned true,
            {| db := db w;
               log := log w ++ [AuthGetUser; SelectAdminUsers uid] |}))
  /\ (forall d,
         auth_session net = Resolves d ->
         email_is_admin adminEmail d = false ->
         membership_found uid net w = false ->
         fault_of net (SelectAdminUsers uid) <> Unreachable ->
         rpc_grants uid net = true ->
         checkUserIsAdmin adminEmail uid net w
         = (Returned true,
            {| db := db w;
               log := log w ++ [AuthGetUser; SelectAdminUsers uid;
                                RpcIsAdmin uid] |}))
  /\ (session_email_matches adminEmail net = false ->
      membership_found uid net w = false ->
      rpc_grants uid net = false ->
      exists w',
        checkUserIsAdmin adminEmail uid net w = (Returned false, w')
        /\ db w' = db w).
Proof.
  intros Hid.
  unfold checkUserIsAdmin, session_email_matches, membership_found,
    membership_lookup, rpc_grants.
  rewrite (guard_passes uid Hid). run_async.
  repeat split.
  - intros d -> ->. reflexivity.
  - intros d -> ->. cbn.
    destruct (fault_of net (SelectAdminUsers uid)); cbn; try discriminate.
    destruct (maybeSingle _) as [[?|] [?|]]; cbn; try discriminate.
    intros _. rewrite <- app_assoc. reflexivity.
  - intros d -> Hmail. rewrite Hmail. cbn.
    destruct (fault_of net (SelectAdminUsers uid)); cbn;
      [ destruct (maybeSingle _) as [[?|] [?|]]; cbn; try discriminate
      | | intros _ H; contradiction H; reflexivity ];
      intros _ _;
      destruct (is_admin_rpc net uid) as [[[[| [|] | |]|] [?|]] |]; cbn;
      try discriminate; intros _; rewrite <- !app_assoc; reflexivity.
  - destruct (auth_session net) as [d |]; [| intros; eexists; split; reflexivity].
    intros ->. cbn.
    destruct (fault_of net (SelectAdminUsers uid)); cbn;
      [ destruct (maybeSingle _) as [[?|] [?|]]; cbn; try discriminate
      | | intros; eexists; split; reflexivity ];
      intros _;
      destruct (is_admin_rpc net uid) as [[[[| [|] | |]|] [?|]] |]; cbn;
      try discriminate; intros _; eexists; split; reflexivity.
Qed.

Lemma isAdmin_resolution_witness :
  checkUserIsAdmin sample_admin_email "a1" admin_net fresh_world
  = (Returned true,
     {| db := db fresh_world; log := log fresh_world ++ [AuthGetUser] |})
  /\ checkUserIsAdmin sample_admin_email "u1" visitor_net world_with_member
     = (Returned true,
        {| db := db world_with_member;
           log := log world_with_member
                  ++ [AuthGetUser; SelectAdminUsers "u1"] |})
  /\ checkUserIsAdmin sample_admin_email "u1" lookup_error_net fresh_world
     = (Returned true,
        {| db := db fresh_world;
           log := log fresh_world
                  ++ [AuthGetUser; SelectAdminUsers "u1"; RpcIsAdmin "u1"] |})
  /\ exists w',
       checkUserIsAdmin sample_admin_email "u1" visitor_net fresh_world
       = (Returned false, w')
       /\ db w' = db fresh_world.
Proof.
  assert (Ha : "a1" <> "") by discriminate.
  assert (Hu : "u1" <> "") by discriminate.
  split; [| split; [| split]].
  - destruct (isAdmin_resolution sample_admin_email "a1" admin_net fresh_world Ha)
      as (Hemail & _).
    apply (Hemail admin_session); reflexivity.
  - destruct (isAdmin_resolution sample_admin_email "u1" visitor_net
                world_with_member Hu) as (_ & Hmember & _).
    apply (Hmember visitor_session); reflexivity.
  - destruct (isAdmin_resolution sample_admin_email "u1" lookup_error_net
                fresh_world Hu) as (_ & _ & Hrpc & _).
    apply (Hrpc visitor_session); try reflexivity. cbn. discriminate.
  - destruct (isAdmin_resolution sample_admin_email "u1" visitor_net
                fresh_world Hu) as (_ & _ & _ & Hnone).
    apply Hnone; reflexivity.
Defined.

(** C4 as it is worded covers every [userId]; the empty one is refused
    before the session is looked at, even with the administrator signed
    in. *)
Lemma isAdmin_email_rule_fails_on_empty_id :
  ~ (forall (adminEmail uid : string) (net : remote) (w : world)
            (d : option AuthData),
        auth_session net = Resolves d ->
        email_is_admin adminEmail d = true ->
        fst (checkUserIsAdmin adminEmail uid net w) = Returned true).
Proof.
  intros H.
  specialize (H sample_admin_email "" admin_net fresh_world admin_session
                eq_refl eq_refl).
  discriminate H.
Qed.

(** C6 as it is worded lets every failure of the membership lookup fall
    through to the remote procedure.  A lookup that fails by throwing is
    caught by the handler of step 2, which returns the email check: the
    answer is [false] and the remote procedure, which would have said
    [true], is not called. *)
Lemma failing_lookup_can_end_resolution :
  ~ (forall (adminEmail uid : string) (net : remote) (w : world)
            (d : option AuthData),
        uid <> "" ->
        auth_session net = Resolves d ->
        email_is_admin adminEmail d = false ->
        fault_of net (SelectAdminUsers uid) <> Healthy ->
        is_admin_rpc net uid = Resolves (ok (Some (JBool true))) ->
        fst (checkUserIsAdmin adminEmail uid net w) = Returned true).
Proof.
  intros H.
  assert (Hfalse : fst (checkUserIsAdmin sample_admin_email "u1"
                          lookup_throws_net fresh_world) = Returned true).
  { apply (H sample_admin_email "u1" lookup_throws_net fresh_world
             visitor_session);
      try reflexivity; cbn; discriminate. }
  discriminate Hfalse.
Qed.

(** C6, as the code has it.  With a session whose email is not the
    administrator's, a membership lookup that resolves to an error does
    not end the resolution: the remote procedure is called next, and when
    it gives exactly [true] and no error the answer is [true].  Whenever
    the resolution gets to the remote procedure and the call to it throws,
    the failure is caught and the answer is [false].  A membership lookup
    that itself throws ends the resolution: the answer is [false] and the
    remote procedure is not called. *)
Theorem lookup_error_falls_through :
  (forall (adminEmail uid : string) (net : remote) (w : world)
          (d : option AuthData) (r : response admin_users_row)
          (e : PostgrestError),
      uid <> "" ->
      auth_session net = Resolves d ->
      email_is_admin adminEmail d = false ->
      membership_lookup uid net w = Resolves r ->
      error r = Some e ->
      let w' := {| db := db w;
                   log := log w ++ [AuthGetUser; SelectAdminUsers uid;
                                    RpcIsAdmin uid] |} in
      checkUserIsAdmin adminEmail uid net w
      = (Returned (rpc_grants uid net), w')
      /\ (is_admin_rpc net uid = Resolves (ok (Some (JBool true))) ->
          checkUserIsAdmin adminEmail uid net w = (Returned true, w')))
  /\ (forall (adminEmail uid : string) (net : remote) (w : world)
             (d : option AuthData) (r : response admin_users_row),
         uid <> "" ->
         auth_session net = Resolves d ->
         email_is_admin adminEmail d = false ->
         membership_lookup uid net w = Resolves r ->
         membership_found uid net w = false ->
         is_admin_rpc net uid = Rejects ->
         checkUserIsAdmin adminEmail uid net w
         = (Returned false,
            {| db := db w;
               log := log w ++ [AuthGetUser; SelectAdminUsers uid;
                                RpcIsAdmin uid] |}))
  /\ (forall (adminEmail uid : string) (net : remote) (w : world)
             (d : option AuthData),
         uid <> "" ->
         auth_session net = Resolves d ->
         email_is_admin adminEmail d = false ->
         fault_of net (SelectAdminUsers uid) = Unreachable ->
         checkUserIsAdmin adminEmail uid net w
         = (Returned false,
            {| db := db w;
               log := log w ++ [AuthGetUser; SelectAdminUsers uid] |})).
Proof.
  split; [| split].
  - intros adminEmail uid net w d r e Hid Hsession Hmail Hlookup Herr w'.
    assert (Hfound : membership_found uid net w = false).
    { unfold membership_found. rewrite Hlookup, Herr. reflexivity. }
    pose proof (resolution_reaches_rpc adminEmail uid net w d r
                  Hid Hsession Hmail Hlookup Hfound) as Hrun.
    split; [exact Hrun |].
    intros Hrpc. rewrite Hrun. unfold rpc_grants. rewrite Hrpc. reflexivity.
  - intros adminEmail uid net w d r Hid Hsession Hmail Hlookup Hfound Hrpc.
    rewrite (resolution_reaches_rpc adminEmail uid net w d r
               Hid Hsession Hmail Hlookup Hfound).
    unfold rpc_grants. rewrite Hrpc. reflexivity.
  - intros adminEmail uid net w d Hid Hsession Hmail Hthrows.
    rewrite (lookup_throw_skips_rpc adminEmail uid net w d
               Hid Hsession Hmail Hthrows).
    rewrite <- app_assoc. reflexivity.
Qed.

Lemma lookup_error_falls_through_witness :
  let w' := {| db := db fresh_world;
               log := log fresh_world
                      ++ [AuthGetUser; SelectAdminUsers "u1"; RpcIsAdmin "u1"] |} in
  checkUserIsAdmin sample_admin_email "u1" lookup_error_net fresh_world
  = (Returned true, w')
  /\ checkUserIsAdmin sample_admin_email "u1" rpc_throws_net fresh_world
     = (Returned false, w')
  /\ checkUserIsAdmin sample_admin_email "u1" lookup_throws_net fresh_world
     = (Returned false,
        {| db := db fresh_world;
           log := log fresh_world ++ [AuthGetUser; SelectAdminUsers "u1"] |}).
Proof.
  assert (Hu : "u1" <> "") by discriminate.
  destruct lookup_error_falls_through as (Hfall & Hswallow & Hthrows).
  split; [| split].
  - apply (Hfall sample_admin_email "u1" lookup_error_net fresh_world
             visitor_session (failed {| message := "permission denied" |})
             {| message := "permission denied" |});
      reflexivity || exact Hu.
  - apply (Hswallow sample_admin_email "u1" rpc_throws_net fresh_world
             visitor_session (failed {| message := "permission denied" |}));
      reflexivity || exact Hu.
  - apply (Hthrows sample_admin_email "u1" lookup_throws_net fresh_world
             visitor_session);
      reflexivity || exact Hu.
Defined.

(** C10. For the empty [userId] the answer is [false] at once: no request
    is sent and nothing changes, also when the session's email is the
    administrator's up to letter case. *)
Theorem empty_id_is_never_admin :
  (forall (adminEmail : string) (net : remote) (w : world),
      checkUserIsAdmin adminEmail "" net w = (Returned false, w))
  /\ session_email_matches sample_admin_email admin_net = true
  /\ checkUserIsAdmin sample_admin_email "" admin_net fresh_world
     = (Returned false, fresh_world).
Proof.
  repeat split.
Qed.

(* ------------------------------------------------------------------ *)
(** ** Membership upsert *)

Lemma admins_of_app (uid : string) (l1 l2 : list admin_users_row) :
  admins_of uid (l1 ++ l2) = admins_of uid l1 ++ admins_of uid l2.
Proof. apply filter_app. Qed.

Lemma admins_of_owner (uid : string) (rows : list admin_users_row)
  (r : admin_users_row) :
  In r (admins_of uid rows) -> r = {| admin_user_id := uid |}.
Proof.
  unfold admins_of. rewrite filter_In. intros [_ E].
  apply String.eqb_eq in E. destruct r as [u]. cbn in E. subst u. reflexivity.
Qed.

Lemma admins_of_self (uid : string) :
  admins_of uid [ {| admin_user_id := uid |} ] = [ {| admin_user_id := uid |} ].
Proof.
  unfold admins_of. cbn [filter admin_user_id].
  rewrite String.eqb_refl. reflexivity.
Qed.

(** C7 as it is worded says that [false] comes from a failed insert
    only; a lookup that resolves to an error also gives [false], and then
    no insert is sent at all. *)
Lemma ensureMembership_false_without_write_error :
  ~ (forall (uid : string) (net : remote) (w : world),
        fst (addAdminUser uid net w) = Returned false ->
        fault_of net (InsertAdminUsers {| admin_user_id := uid |}) <> Healthy).
Proof.
  intros H.
  apply (H "u1" lookup_error_net fresh_world); reflexivity.
Qed.

(** C7, as the code has it.  [addAdminUser] looks the user up first.
    - A lookup that gives a row and no error: [true], and nothing is
      written.
    - A lookup that gives no row and no error: one insert is sent; when it
      goes through, exactly one row for the user is added and the answer
      is [true].
    - The answer is [false] only when the lookup or the insert did not go
      through (a lookup also resolves to an error when several rows of
      the user exist); no failure is thrown to the caller.
    - A lookup that does not go through gives [false] at once: the
      lookup is the only request sent, no insert is attempted and the
      tables are as before.
    - An insert that does not go through, after a lookup that found no
      row, gives [false] and leaves the tables as before.
    - Hence two calls in sequence, on networks that let every request
      through and starting from at most one row of the user, both answer
      [true] and leave exactly one row of the user. *)
Theorem ensureMembership_upsert :
  (forall (uid : string) (net : remote) (w : world) (row : admin_users_row),
      fault_of net (SelectAdminUsers uid) = Healthy ->
      admins_of uid (admin_users (db w)) = [row] ->
      addAdminUser uid net w
      = (Returned true,
         {| db := db w; log := log w ++ [SelectAdminUsers uid] |}))
  /\ (forall (uid : string) (net : remote) (w : world),
         fault_of net (SelectAdminUsers uid) = Healthy ->
         admins_of uid (admin_users (db w)) = [] ->
         fault_of net (InsertAdminUsers {| admin_user_id := uid |}) = Healthy ->
         addAdminUser uid net w
         = (Returned true,
            {| db := {| token_transactions := token_transactions (db w);
                        user_tokens := user_tokens (db w);
                        admin_users := admin_users (db w)
                                       ++ [ {| admin_user_id := uid |} ] |};
               log := log w ++ [SelectAdminUsers uid;
                                InsertAdminUsers {| admin_user_id := uid |}] |}))
  /\ (forall (uid : string) (net : remote) (w : world),
         exists (answer : bool) (w' : world),
           addAdminUser uid net w = (Returned answer, w')
           /\ (answer = false ->
               db w' = db w
               /\ (fault_of net (SelectAdminUsers uid) <> Healthy
                   \/ (2 <= List.length (admins_of uid (admin_users (db w))))%nat
                   \/ fault_of net (InsertAdminUsers {| admin_user_id := uid |})
                      <> Healthy)))
  /\ (forall (uid : string) (net1 net2 : remote) (w : world),
         all_healthy net1 ->
         all_healthy net2 ->
         (List.length (admins_of uid (admin_users (db w))) <= 1)%nat ->
         exists w1 w2 : world,
           addAdminUser uid net1 w = (Returned true, w1)
           /\ addAdminUser uid net2 w1 = (Returned true, w2)
           /\ admins_of uid (admin_users (db w2))
              = [ {| admin_user_id := uid |} ])
  /\ (forall (uid : string) (net : remote) (w : world),
         fault_of net (SelectAdminUsers uid) <> Healthy
         \/ (2 <= List.length (admins_of uid (admin_users (db w))))%nat ->
         addAdminUser uid net w
         = (Returned false,
            {| db := db w; log := log w ++ [SelectAdminUsers uid] |}))
  /\ (forall (uid : string) (net : remote) (w : world),
         fault_of net (SelectAdminUsers uid) = Healthy ->
         admins_of uid (admin_users (db w)) = [] ->
         fault_of net (InsertAdminUsers {| admin_user_id := uid |}) <> Healthy ->
         addAdminUser uid net w
         = (Returned false,
            {| db := db w;
               log := log w ++ [SelectAdminUsers uid;
                                InsertAdminUsers {| admin_user_id := uid |}] |})).
Proof.
  split; [| split; [| split; [| split; [| split]]]].
  - intros uid net w row Hlookup Hrow.
    unfold addAdminUser. run_async. rewrite Hlookup, Hrow. reflexivity.
  - intros uid net w Hlookup Hrow Hinsert.
    unfold addAdminUser. run_async. rewrite Hlookup, Hrow. cbn.
    rewrite Hinsert. cbn. rewrite <- app_assoc. reflexivity.
  - intros uid net w. unfold addAdminUser. run_async.
    destruct (fault_of net (SelectAdminUsers uid)) eqn:Hlookup; cbn.
    + destruct (admins_of uid (admin_users (db w))) as [| r [| r' rest]]; cbn.
      * destruct (fault_of net (InsertAdminUsers _)) eqn:Hinsert; cbn;
          eexists _, _; (split; [reflexivity |]); intros Hfalse;
          try discriminate Hfalse;
          (split; [reflexivity |]); right; right; discriminate.
      * eexists _, _. split; [reflexivity |]. discriminate.
      * eexists _, _. split; [reflexivity |]. intros _.
        split; [reflexivity |]. right; left. lia.
    + eexists _, _. split; [reflexivity |]. intros _.
      split; [reflexivity |]. left. discriminate.
    + eexists _, _. split; [reflexivity |]. intros _.
      split; [reflexivity |]. left. discriminate.
  - intros uid net1 net2 w H1 H2 Hone.
    unfold addAdminUser. run_async. rewrite !H1. cbn.
    destruct (admins_of uid (admin_users (db w))) as [| r [| r' rest]] eqn:Hrows;
      cbn in Hone |- *; [ | | lia ].
    + rewrite H1. cbn. eexists _, _. split; [reflexivity |].
      rewrite !H2. cbn. rewrite admins_of_app, Hrows, admins_of_self. cbn.
      split; [reflexivity |]. cbn.
      rewrite admins_of_app, Hrows. apply admins_of_self.
    + eexists _, _. split; [reflexivity |].
      rewrite !H2. cbn. rewrite Hrows. cbn. split; [reflexivity |].
      cbn. rewrite Hrows. f_equal. apply (admins_of_owner uid (admin_users (db w))).
      rewrite Hrows. left. reflexivity.
  - intros uid net w Hlookup. unfold addAdminUser. run_async.
    destruct (fault_of net (SelectAdminUsers uid)) eqn:Hfault; cbn;
      [| reflexivity | reflexivity].
    destruct Hlookup as [Hbad | Hmany]; [contradiction Hbad; reflexivity |].
    destruct (admins_of uid (admin_users (db w))) as [| r [| r' rest]];
      cbn in Hmany |- *; [lia | lia | reflexivity].
  - intros uid net w Hlookup Hrow Hinsert.
    unfold addAdminUser. run_async. rewrite Hlookup, Hrow. cbn.
    destruct (fault_of net (InsertAdminUsers _));
      [contradiction Hinsert; reflexivity | |];
      cbn; rewrite <- app_assoc; reflexivity.
Qed.

Lemma ensureMembership_upsert_witness :
  (exists w1 w2 : world,
      addAdminUser "u1" admin_net fresh_world = (Returned true, w1)
      /\ addAdminUser "u1" visitor_net w1 = (Returned true, w2)
      /\ admins_of "u1" (admin_users (db w2)) = [ {| admin_user_id := "u1" |} ])
  /\ addAdminUser "u1" lookup_error_net fresh_world
     = (Returned false,
        {| db := db fresh_world;
           log := log fresh_world ++ [SelectAdminUsers "u1"] |}).
Proof.
  destruct ensureMembership_upsert as (_ & _ & _ & Htwice & Hlookup & _).
  split.
  - apply (Htwice "u1" admin_net visitor_net fresh_world).
    + intros rq. reflexivity.
    + intros rq. reflexivity.
    + vm_compute. lia.
  - apply (Hlookup "u1" lookup_error_net fresh_world).
    left. cbn. discriminate.
Defined.

(* ------------------------------------------------------------------ *)
(** ** End-to-end scenarios *)

(** A user holding 45 tokens reports a [medium] pile: 60 tokens, level 2. *)
Example scenario_existing_balance :
  tokens_of "u1"
    (user_tokens (db (snd (updateUserTokensForReport "u1" "medium" "Park litter"
                             anonymous_net world_with_45))))
  = [ {| user_id := "u1"; balance := 60; level := 2;
         updated_at := Some "2025-06-01T12:00:00.000Z" |} ].
Proof. reflexivity. Qed.

(** An unknown size: [false], and nothing happens. *)
Example scenario_unknown_size :
  updateUserTokensForReport "u1" "huge" "x" anonymous_net world_with_45
  = (Returned false, world_with_45).
Proof. reflexivity. Qed.

(** The administrator, not yet a member, is recognised by email; the
    membership is then added once and found on the second call. *)
Example scenario_admin_by_email :
  fst (checkUserIsAdmin sample_admin_email "a1" admin_net fresh_world)
  = Returned true
  /\ map admin_user_id
       (admin_users
          (db (snd (addAdminUser "a1" admin_net
                      (snd (addAdminUser "a1" admin_net fresh_world))))))
     = ["a1"].
Proof. split; reflexivity. Qed.

(** A member whose email is not the administrator's is an administrator. *)
Example scenario_member_other_email :
  fst (checkUserIsAdmin sample_admin_email "u1" visitor_net world_with_member)
  = Returned true.
Proof. reflexivity. Qed.

(** A lookup that throws ends the resolution although the remote
    procedure would have answered [true]. *)
Example scenario_lookup_throws :
  checkUserIsAdmin sample_admin_email "u1" lookup_throws_net fresh_world
  = (Returned false,
     {| db := empty_db; log := [AuthGetUser; SelectAdminUsers "u1"] |}).
Proof. reflexivity. Qed.

(* ------------------------------------------------------------------ *)
(** ** Reward accrual: what a call leaves alone, and what a failure
    leaves behind *)

Lemma set_tokens_owner (uid : string) (b l : Z) (stamp : string)
  (r : user_tokens_row) :
  user_id (set_tokens uid b l stamp r) = user_id r.
Proof.
  unfold set_tokens. destruct (user_id r =? uid)%string; reflexivity.
Qed.

Lemma set_tokens_other (uid : string) (b l : Z) (stamp : string)
  (r : user_tokens_row) :
  user_id r <> uid -> set_tokens uid b l stamp r = r.
Proof.
  intros Hne. unfold set_tokens.
  destruct (String.eqb_spec (user_id r) uid); [contradiction | reflexivity].
Qed.

Lemma tokens_of_set_other (uid other : string) (b l : Z) (stamp : string)
  (rows : list user_tokens_row) :
  other <> uid ->
  tokens_of other (map (set_tokens uid b l stamp) rows) = tokens_of other rows.
Proof.
  intros Hne. unfold tokens_of.
  induction rows as [| r rows IH]; [reflexivity |].
  cbn [map filter]. rewrite set_tokens_owner, IH.
  destruct (String.eqb_spec (user_id r) other) as [E | _]; [| reflexivity].
  rewrite set_tokens_other by congruence. reflexivity.
Qed.

Lemma tokens_of_other_row (uid other : string) (rows : list user_tokens_row)
  (b l : Z) (stamp : option string) :
  other <> uid ->
  tokens_of other
    (rows ++ [ {| user_id := uid; balance := b; level := l;
                  updated_at := stamp |} ])
  = tokens_of other rows.
Proof.
  intros Hne. rewrite tokens_of_app. unfold tokens_of at 2.
  cbn [filter user_id].
  destruct (String.eqb_spec uid other) as [E | _]; [congruence |].
  apply app_nil_r.
Qed.

Lemma ledger_of_other_row (uid other : string)
  (rows : list token_transactions_row) (a : Z) (d k s : string) :
  other <> uid ->
  ledger_of other
    (rows ++ [ {| tx_user_id := uid; amount := a; description := d;
                  transaction_type := k; source_type := s |} ])
  = ledger_of other rows.
Proof.
  intros Hne. unfold ledger_of. rewrite filter_app. cbn [filter tx_user_id].
  destruct (String.eqb_spec uid other) as [E | _]; [congruence |].
  apply app_nil_r.
Qed.

(** X1. Whatever the size, the title and the network, a call of
    [updateUserTokensForReport] returns a boolean (no failure reaches the
    caller), never touches the administrators, and leaves the account rows
    and the ledger records of every other user as they were. *)
Theorem award_leaves_others_alone
  (uid ws title : string) (net : remote) (w : world) :
  exists (answer : bool) (w' : world),
    updateUserTokensForReport uid ws title net w = (Returned answer, w')
    /\ admin_users (db w') = admin_users (db w)
    /\ forall other : string,
         other <> uid ->
         tokens_of other (user_tokens (db w'))
         = tokens_of other (user_tokens (db w))
         /\ ledger_of other (token_transactions (db w'))
            = ledger_of other (token_transactions (db w)).
Proof.
  unfold updateUserTokensForReport.
  destruct (getTokensForWasteSize ws =? 0);
    [ eexists _, _; repeat split | ].
  run_async.
  destruct (fault_of net (InsertTokenTransactions _)); cbn;
    [ | eexists _, _; repeat split | eexists _, _; repeat split ].
  destruct (fault_of net (SelectUserTokens uid)); cbn;
    [ | eexists _, _; (split; [reflexivity |]); (split; [reflexivity |]);
        intros other Hne; (split; [reflexivity |]);
        apply ledger_of_other_row; exact Hne
      | eexists _, _; (split; [reflexivity |]); (split; [reflexivity |]);
        intros other Hne; (split; [reflexivity |]);
        apply ledger_of_other_row; exact Hne ].
  destruct (tokens_of uid (user_tokens (db w))) as [| acct [| ? ?]]; cbn.
  - destruct (fault_of net (InsertUserTokens _)); cbn;
      eexists _, _; (split; [reflexivity |]); (split; [reflexivity |]);
      intros other Hne; cbn;
      (split; [ try reflexivity; apply tokens_of_other_row; exact Hne
              | apply ledger_of_other_row; exact Hne ]).
  - destruct (fault_of net (UpdateUserTokens _ _ _ _)); cbn;
      eexists _, _; (split; [reflexivity |]); (split; [reflexivity |]);
      intros other Hne; cbn;
      (split; [ try reflexivity; apply tokens_of_set_other; exact Hne
              | apply ledger_of_other_row; exact Hne ]).
  - eexists _, _; (split; [reflexivity |]); (split; [reflexivity |]).
    intros other Hne. split; [reflexivity |].
    apply ledger_of_other_row; exact Hne.
Qed.

Lemma award_leaves_others_alone_witness :
  exists (answer : bool) (w' : world),
    updateUserTokensForReport "u2" "large" "Riverbank" anonymous_net
      world_with_45 = (Returned answer, w')
    /\ tokens_of "u1" (user_tokens (db w'))
       = tokens_of "u1" (user_tokens (db world_with_45)).
Proof.
  destruct (award_leaves_others_alone "u2" "large" "Riverbank" anonymous_net
              world_with_45) as (answer & w' & Hrun & _ & Hothers).
  exists answer, w'. split; [exact Hrun |].
  apply (Hothers "u1"). discriminate.
Defined.

(** X2. The ledger is written before the account.  When the ledger insert
    of a recognized size goes through and the call still returns [false]
    (the account could not be read, or not written), the ledger keeps the
    new record although the account table is exactly as before: the
    ledger then shows tokens the balance does not have. *)
Theorem failed_account_step_keeps_ledger_record
  (uid ws title : string) (net : remote) (w w' : world) :
  recognized ws ->
  fault_of net (InsertTokenTransactions (ledger_entry uid (ws, title))) = Healthy ->
  updateUserTokensForReport uid ws title net w = (Returned false, w') ->
  token_transactions (db w')
  = token_transactions (db w) ++ [ledger_entry uid (ws, title)]
  /\ user_tokens (db w') = user_tokens (db w).
Proof.
  intros Hws Hledger Hrun.
  unfold updateUserTokensForReport in Hrun.
  assert (Hz : (getTokensForWasteSize ws =? 0) = false).
  { apply Z.eqb_neq. destruct (recognized_tokens ws Hws) as [E | [E | E]]; lia. }
  rewrite Hz in Hrun. unfold ledger_entry in Hledger. cbn [fst snd] in Hledger.
  run_async in Hrun. rewrite Hledger in Hrun. cbn in Hrun.
  destruct (fault_of net (SelectUserTokens uid)); cbn in Hrun;
    [ | injection Hrun as <-; split; reflexivity
      | injection Hrun as <-; split; reflexivity ].
  destruct (tokens_of uid (user_tokens (db w))) as [| acct [| ? ?]];
    cbn in Hrun.
  - destruct (fault_of net (InsertUserTokens _)); cbn in Hrun;
      [ discriminate Hrun | | ]; injection Hrun as <-; split; reflexivity.
  - destruct (fault_of net (UpdateUserTokens _ _ _ _)); cbn in Hrun;
      [ discriminate Hrun | | ]; injection Hrun as <-; split; reflexivity.
  - injection Hrun as <-. split; reflexivity.
Qed.

Lemma failed_account_step_keeps_ledger_record_witness :
  let w' := snd (updateUserTokensForReport "u1" "medium" "Park litter"
                   account_down_net world_with_45) in
  token_transactions (db w')
  = token_transactions (db world_with_45)
    ++ [ledger_entry "u1" ("medium", "Park litter")]
  /\ user_tokens (db w') = user_tokens (db world_with_45).
Proof.
  apply (failed_account_step_keeps_ledger_record "u1" "medium" "Park litter"
           account_down_net world_with_45).
  - right; left; reflexivity.
  - reflexivity.
  - reflexivity.
Defined.

(* ------------------------------------------------------------------ *)
(** ** Several reports in a row *)

Lemma stored_balance_single (uid : string) (d : database) (r : user_tokens_row) :
  tokens_of uid (user_tokens d) = [r] -> stored_balance uid d = balance r.
Proof. intros H. unfold stored_balance. rewrite H. reflexivity. Qed.

(** One report on a network that lets every request through. *)
Lemma award_step_healthy (uid ws title : string) (net : remote) (w : world) :
  recognized ws ->
  all_healthy net ->
  (List.length (tokens_of uid (user_tokens (db w))) <= 1)%nat ->
  exists (w' : world) (r : user_tokens_row),
    updateUserTokensForReport uid ws title net w = (Returned true, w')
    /\ token_transactions (db w')
       = token_transactions (db w) ++ [ledger_entry uid (ws, title)]
    /\ tokens_of uid (user_tokens (db w')) = [r]
    /\ balance r = stored_balance uid (db w) + getTokensForWasteSize ws
    /\ level_consistent r.
Proof.
  intros Hws Hnet Hone.
  destruct (award_goes_through uid ws title net w Hws Hnet Hone) as [w' Hrun].
  assert (Hlevel : level_threshold (getTokensForWasteSize ws) = 1).
  { destruct (recognized_tokens ws Hws) as [-> | [-> | ->]]; reflexivity. }
  assert (Hledger : token_transactions (db w')
                    = token_transactions (db w) ++ [ledger_entry uid (ws, title)]).
  { pose proof Hrun as Hrun'. unfold updateUserTokensForReport in Hrun'.
    assert (Hz : (getTokensForWasteSize ws =? 0) = false).
    { apply Z.eqb_neq.
      destruct (recognized_tokens ws Hws) as [E | [E | E]]; lia. }
    rewrite Hz in Hrun'. run_async in Hrun'.
    rewrite !Hnet in Hrun'. cbn in Hrun'. rewrite Hnet in Hrun'. cbn in Hrun'.
    destruct (tokens_of uid (user_tokens (db w))) as [| acct [| ? ?]];
      cbn in Hrun'; [ | | cbn in Hone; lia ];
      rewrite Hnet in Hrun'; cbn in Hrun'; injection Hrun' as <-; reflexivity. }
  destruct (award_success uid ws title net w w' Hws Hrun)
    as [[Hnone Hdb] | (acct & Hsingle & Hdb)].
  - exists w'. eexists. split; [exact Hrun |]. split; [exact Hledger |].
    rewrite Hdb, tokens_of_app, Hnone. unfold tokens_of at 1.
    cbn [filter user_id app]. rewrite String.eqb_refl.
    split; [reflexivity |]. unfold stored_balance. rewrite Hnone.
    split; [cbn; lia |]. unfold level_consistent. cbn [level balance].
    symmetry. exact Hlevel.
  - assert (Hown : user_id acct = uid).
    { apply (tokens_of_owner uid (user_tokens (db w))).
      rewrite Hsingle. left. reflexivity. }
    exists w'. eexists. split; [exact Hrun |]. split; [exact Hledger |].
    rewrite Hdb, tokens_of_set, Hsingle. cbn [map].
    split; [reflexivity |].
    unfold set_tokens. rewrite Hown, String.eqb_refl.
    rewrite (stored_balance_single uid (db w) acct Hsingle).
    split; reflexivity.
Qed.

Lemma ledger_sum_entries (uid : string) (reports : list (string * string)) :
  ledger_sum (map (ledger_entry uid) reports) = total_tokens reports.
Proof.
  induction reports as [| report rest IH]; [reflexivity |].
  cbn [map ledger_sum total_tokens fold_right] in *.
  unfold ledger_sum, total_tokens in IH. rewrite IH. reflexivity.
Qed.

(** X3. A user's reports of recognized sizes, sent one after the other
    over a network that lets every request through: every call answers
    [true], the ledger grows by one record per report, in order, and the
    stored balance grows by the sum of the awards, which is also the sum
    of the amounts of the new ledger records; after at least one report
    the user has exactly one account row, whose level is the threshold
    function of its balance. *)
Theorem awards_accumulate
  (uid : string) (reports : list (string * string)) (net : remote) (w : world) :
  Forall (fun report => recognized (fst report)) reports ->
  all_healthy net ->
  (List.length (tokens_of uid (user_tokens (db w))) <= 1)%nat ->
  exists w' : world,
    awardEach uid reports net w = (Returned (map (fun _ => true) reports), w')
    /\ token_transactions (db w')
       = token_transactions (db w) ++ map (ledger_entry uid) reports
    /\ stored_balance uid (db w')
       = stored_balance uid (db w) + total_tokens reports
    /\ ledger_sum (map (ledger_entry uid) reports) = total_tokens reports
    /\ (reports <> [] ->
        exists r, tokens_of uid (user_tokens (db w')) = [r]
                  /\ level_consistent r).
Proof.
  intros Hall Hnet. revert w.
  induction Hall as [| [ws title] rest Hws Hrest IH]; intros w Hone.
  - exists w. cbn. rewrite app_nil_r, Z.add_0_r.
    repeat split. intros H. contradiction H. reflexivity.
  - cbn [fst] in Hws.
    destruct (award_step_healthy uid ws title net w Hws Hnet Hone)
      as (w1 & r1 & Hrun1 & Hledger1 & Hrow1 & Hbal1 & Hcons1).
    assert (Hone1 : (List.length (tokens_of uid (user_tokens (db w1))) <= 1)%nat)
      by (rewrite Hrow1; cbn; lia).
    destruct (IH w1 Hone1) as (w' & Hrun & Hledger & Hbal & _ & Hrow).
    exists w'. split; [| split; [| split; [| split]]].
    + cbn [awardEach map]. unfold bind at 1. rewrite Hrun1.
      unfold bind at 1. rewrite Hrun. reflexivity.
    + rewrite Hledger, Hledger1, <- app_assoc. reflexivity.
    + rewrite Hbal, (stored_balance_single uid (db w1) r1 Hrow1), Hbal1.
      cbn [total_tokens fold_right fst]. unfold total_tokens. lia.
    + apply ledger_sum_entries.
    + intros _. destruct rest as [| next rest'].
      * cbn in Hrun. injection Hrun as <-. exists r1. split; assumption.
      * apply Hrow. discriminate.
Qed.

Lemma awards_accumulate_witness :
  exists w' : world,
    awardEach "u1" three_reports anonymous_net world_with_45
    = (Returned (map (fun _ => true) three_reports), w')
    /\ token_transactions (db w')
       = token_transactions (db world_with_45)
         ++ map (ledger_entry "u1") three_reports
    /\ stored_balance "u1" (db w')
       = stored_balance "u1" (db world_with_45) + total_tokens three_reports
    /\ ledger_sum (map (ledger_entry "u1") three_reports)
       = total_tokens three_reports
    /\ (three_reports <> [] ->
        exists r, tokens_of "u1" (user_tokens (db w')) = [r]
                  /\ level_consistent r).
Proof.
  apply (awards_accumulate "u1" three_reports anonymous_net world_with_45).
  - unfold three_reports.
    constructor; [left; reflexivity |].
    constructor; [right; right; reflexivity |].
    constructor; [right; left; reflexivity | constructor].
  - intros rq. reflexivity.
  - vm_compute. lia.
Defined.

(** X4. A successful award never lowers the level of an account whose
    level agreed with its balance. *)
Theorem award_never_lowers_level
  (uid ws title : string) (net : remote) (w w' : world)
  (acct : user_tokens_row) :
  recognized ws ->
  tokens_of uid (user_tokens (db w)) = [acct] ->
  level_consistent acct ->
  updateUserTokensForReport uid ws title net w = (Returned true, w') ->
  exists r, tokens_of uid (user_tokens (db w')) = [r]
            /\ balance acct < balance r
            /\ level acct <= level r.
Proof.
  intros Hws Hsingle Hcons Hrun.
  assert (Hpos : 0 < getTokensForWasteSize ws)
    by (destruct (recognized_tokens ws Hws) as [E | [E | E]]; lia).
  assert (Hown : user_id acct = uid).
  { apply (tokens_of_owner uid (user_tokens (db w))).
    rewrite Hsingle. left. reflexivity. }
  destruct (award_success uid ws title net w w' Hws Hrun)
    as [[Hnone _] | (acct0 & Hsingle0 & Hdb)].
  - rewrite Hnone in Hsingle. discriminate Hsingle.
  - rewrite Hsingle in Hsingle0. injection Hsingle0 as <-.
    eexists. rewrite Hdb, tokens_of_set, Hsingle. cbn [map].
    split; [reflexivity |].
    unfold set_tokens. rewrite Hown, String.eqb_refl. cbn [balance level].
    split; [lia |]. rewrite Hcons. apply level_threshold_monotone. lia.
Qed.

Lemma award_never_lowers_level_witness :
  exists r,
    tokens_of "u1"
      (user_tokens (db (snd (updateUserTokensForReport "u1" "medium" "Park litter"
                               anonymous_net world_with_45)))) = [r]
    /\ 45 < balance r
    /\ 1 <= level r.
Proof.
  apply (award_never_lowers_level "u1" "medium" "Park litter" anonymous_net
           world_with_45 _
           {| user_id := "u1"; balance := 45; level := 1; updated_at := None |}).
  - right; left; reflexivity.
  - reflexivity.
  - reflexivity.
  - reflexivity.
Defined.

(* ------------------------------------------------------------------ *)
(** ** The transaction lists of the pages *)

Lemma has_In (seen : list string) (key : string) :
  Rewards.has seen key = true <-> In key seen.
Proof.
  unfold Rewards.has. rewrite existsb_exists. split.
  - intros (k & Hin & E). apply String.eqb_eq in E. subst k. exact Hin.
  - intros Hin. exists key. split; [exact Hin | apply String.eqb_refl].
Qed.

Lemma has_not_In (seen : list string) (key : string) :
  Rewards.has seen key = false <-> ~ In key seen.
Proof.
  rewrite <- has_In. destruct (Rewards.has seen key); split; intros H;
    congruence || (exfalso; apply H; reflexivity) || reflexivity.
Qed.

(** The loop, started in any state, adds the rows of [first_seen]. *)
Lemma fold_keep_first (data : list Rewards.TokenTransaction) :
  forall (seen : list string) (unique : list Rewards.TokenTransaction),
    fold_left Rewards.keep_first data (seen, unique)
    = (rev (map Rewards.transaction_key (first_seen seen data)) ++ seen,
       unique ++ first_seen seen data).
Proof.
  induction data as [| t rest IH]; intros seen unique.
  - cbn. rewrite app_nil_r. reflexivity.
  - cbn [fold_left first_seen]. unfold Rewards.keep_first at 2.
    destruct (Rewards.has seen (Rewards.transaction_key t)).
    + apply IH.
    + rewrite IH. cbn [map rev]. rewrite <- !app_assoc. reflexivity.
Qed.

Lemma uniqueTransactions_first_seen (data : list Rewards.TokenTransaction) :
  Rewards.uniqueTransactions data = first_seen [] data.
Proof.
  unfold Rewards.uniqueTransactions. rewrite fold_keep_first. reflexivity.
Qed.

Lemma first_seen_fresh (data : list Rewards.TokenTransaction) :
  forall (seen : list string) (t : Rewards.TokenTransaction),
    In t (first_seen seen data) ->
    In t data /\ ~ In (Rewards.transaction_key t) seen.
Proof.
  induction data as [| h rest IH]; intros seen t Hin; [destruct Hin |].
  cbn [first_seen] in Hin.
  destruct (Rewards.has seen (Rewards.transaction_key h)) eqn:Hseen.
  - destruct (IH seen t Hin) as [Hrest Hfresh].
    split; [right; exact Hrest | exact Hfresh].
  - destruct Hin as [<- | Hin].
    + split; [left; reflexivity | apply has_not_In; exact Hseen].
    + destruct (IH _ t Hin) as [Hrest Hfresh].
      split; [right; exact Hrest |].
      intros Hold. apply Hfresh. right. exact Hold.
Qed.

Lemma first_seen_NoDup (data : list Rewards.TokenTransaction) :
  forall seen : list string,
    NoDup (map Rewards.transaction_key (first_seen seen data)).
Proof.
  induction data as [| h rest IH]; intros seen; [constructor |].
  cbn [first_seen].
  destruct (Rewards.has seen (Rewards.transaction_key h)); [apply IH |].
  cbn [map]. constructor; [| apply IH].
  intros Hin. apply in_map_iff in Hin. destruct Hin as (t & Hkey & Hin).
  destruct (first_seen_fresh rest _ t Hin) as [_ Hfresh].
  apply Hfresh. left. symmetry. exact Hkey.
Qed.

Lemma first_seen_covers (data : list Rewards.TokenTransaction) :
  forall (seen : list string) (t : Rewards.TokenTransaction),
    In t data ->
    In (Rewards.transaction_key t) seen
    \/ In (Rewards.transaction_key t)
         (map Rewards.transaction_key (first_seen seen data)).
Proof.
  induction data as [| h rest IH]; intros seen t Hin; [destruct Hin |].
  cbn [first_seen].
  destruct (Rewards.has seen (Rewards.transaction_key h)) eqn:Hseen.
  - destruct Hin as [<- | Hin]; [left; apply has_In; exact Hseen |].
    apply IH. exact Hin.
  - cbn [map]. destruct Hin as [<- | Hin]; [right; left; reflexivity |].
    destruct (IH (Rewards.transaction_key h :: seen) t Hin) as [[E | Hold] | Hnew].
    + right. left. exact E.
    + left. exact Hold.
    + right. right. exact Hnew.
Qed.

Lemma first_seen_distinct (data : list Rewards.TokenTransaction) :
  forall seen : list string,
    NoDup (map Rewards.transaction_key data) ->
    (forall t, In t data -> ~ In (Rewards.transaction_key t) seen) ->
    first_seen seen data = data.
Proof.
  induction data as [| h rest IH]; intros seen Hnodup Hfresh; [reflexivity |].
  cbn [first_seen]. cbn [map] in Hnodup. inversion Hnodup as [| k ks Hk Hks]; subst.
  assert (Hseen : Rewards.has seen (Rewards.transaction_key h) = false).
  { apply has_not_In. apply Hfresh. left. reflexivity. }
  rewrite Hseen. f_equal. apply IH; [exact Hks |].
  intros t Hin [E | Hold].
  - apply Hk. rewrite E. apply in_map. exact Hin.
  - apply (Hfresh t); [right; exact Hin | exact Hold].
Qed.

Lemma first_seen_app (l1 l2 : list Rewards.TokenTransaction) :
  forall seen : list string,
    exists rest, first_seen seen (l1 ++ l2) = first_seen seen l1 ++ rest.
Proof.
  induction l1 as [| h l1 IH]; intros seen.
  - exists (first_seen seen l2). reflexivity.
  - cbn [app first_seen].
    destruct (Rewards.has seen (Rewards.transaction_key h)).
    + apply IH.
    + destruct (IH (Rewards.transaction_key h :: seen)) as [rest Hrest].
      exists rest. rewrite Hrest. reflexivity.
Qed.

Lemma first_seen_keeps_first (l1 l2 : list Rewards.TokenTransaction)
  (t : Rewards.TokenTransaction) :
  forall seen : list string,
    ~ In (Rewards.transaction_key t) seen ->
    (forall t', In t' l1 ->
                Rewards.transaction_key t' <> Rewards.transaction_key t) ->
    In t (first_seen seen (l1 ++ t :: l2)).
Proof.
  induction l1 as [| h l1 IH]; intros seen Hfresh Hbefore.
  - cbn [app first_seen].
    apply has_not_In in Hfresh. rewrite Hfresh. left. reflexivity.
  - cbn [app first_seen].
    assert (Hrest : forall t', In t' l1 ->
                Rewards.transaction_key t' <> Rewards.transaction_key t)
      by (intros t' Hin; apply Hbefore; right; exact Hin).
    destruct (Rewards.has seen (Rewards.transaction_key h)).
    + apply IH; assumption.
    + right. apply IH; [| exact Hrest].
      intros [E | Hold]; [| exact (Hfresh Hold)].
      apply (Hbefore h); [left; reflexivity | exact E].
Qed.

(** X5. The list a page keeps of the rows it fetched: no two rows kept
    have the same key (description, amount and kind); every row kept was
    fetched; every fetched row has its key among the rows kept; the first
    row with a given key is the one kept; rows whose keys are all
    different are all kept, in order; and running the loop on its own
    output changes nothing. *)
Theorem uniqueTransactions_keeps_first_of_each_key
  (data : list Rewards.TokenTransaction) :
  NoDup (map Rewards.transaction_key (Rewards.uniqueTransactions data))
  /\ (forall t, In t (Rewards.uniqueTransactions data) -> In t data)
  /\ (forall t, In t data ->
        In (Rewards.transaction_key t)
           (map Rewards.transaction_key (Rewards.uniqueTransactions data)))
  /\ (forall l1 t l2,
        data = l1 ++ t :: l2 ->
        (forall t', In t' l1 ->
                    Rewards.transaction_key t' <> Rewards.transaction_key t) ->
        In t (Rewards.uniqueTransactions data))
  /\ (NoDup (map Rewards.transaction_key data) ->
      Rewards.uniqueTransactions data = data)
  /\ Rewards.uniqueTransactions (Rewards.uniqueTransactions data)
     = Rewards.uniqueTransactions data.
Proof.
  rewrite !uniqueTransactions_first_seen.
  split; [apply first_seen_NoDup |].
  split; [intros t Hin; apply (first_seen_fresh data [] t Hin) |].
  split.
  { intros t Hin. destruct (first_seen_covers data [] t Hin) as [[] | H].
    exact H. }
  split.
  { intros l1 t l2 -> Hbefore.
    apply first_seen_keeps_first; [intros [] | exact Hbefore]. }
  split.
  { intros Hnodup. apply first_seen_distinct; [exact Hnodup |].
    intros t _ []. }
  apply first_seen_distinct; [apply first_seen_NoDup |].
  intros t _ [].
Qed.

Lemma uniqueTransactions_keeps_first_of_each_key_witness :
  In dump_row (Rewards.uniqueTransactions fetched_rows)
  /\ Rewards.uniqueTransactions [beach_row_new; dump_row]
     = [beach_row_new; dump_row].
Proof.
  split.
  - destruct (uniqueTransactions_keeps_first_of_each_key fetched_rows)
      as (_ & _ & _ & Hfirst & _).
    apply (Hfirst [beach_row_new; beach_row_old] dump_row []);
      [reflexivity |].
    intros t' [<- | [<- | []]]; vm_compute; discriminate.
  - destruct (uniqueTransactions_keeps_first_of_each_key
                [beach_row_new; dump_row]) as (_ & _ & _ & _ & Hsame & _).
    apply Hsame. vm_compute.
    constructor; [intros [E | []]; discriminate E |].
    constructor; [intros [] | constructor].
Defined.

(** X6. The three "recent" rows of the rewards page are the beginning of
    the list the transaction history shows for the same rows: the page
    never shows a row, or an order, that the history does not. *)
Theorem recent_is_start_of_history (data : list Rewards.TokenTransaction) :
  (List.length (Rewards.recent data) <= 3)%nat
  /\ exists rest,
       Rewards.uniqueTransactions data = Rewards.recent data ++ rest.
Proof.
  unfold Rewards.recent. split; [apply firstn_le_length |].
  rewrite !uniqueTransactions_first_seen.
  destruct (first_seen_app (firstn 20 data) (skipn 20 data) []) as [rest Hrest].
  rewrite firstn_skipn in Hrest. rewrite Hrest.
  exists (skipn 3 (first_seen [] (firstn 20 data)) ++ rest).
  rewrite app_assoc, firstn_skipn. reflexivity.
Qed.

(** X7. Two reports of the same size under the same title are both
    rewarded: the ledger gets the same record twice and the stored balance
    grows twice.  But the two records have the same key, so a page that
    lists them keeps one row only. *)
Theorem repeated_report_is_listed_once
  (uid ws title : string) (net1 net2 : remote) (w w1 w2 : world) :
  recognized ws ->
  updateUserTokensForReport uid ws title net1 w = (Returned true, w1) ->
  updateUserTokensForReport uid ws title net2 w1 = (Returned true, w2) ->
  let entry := ledger_entry uid (ws, title) in
  token_transactions (db w2) = token_transactions (db w) ++ [entry; entry]
  /\ stored_balance uid (db w2)
     = stored_balance uid (db w) + 2 * getTokensForWasteSize ws
  /\ forall t1 t2 : Rewards.TokenTransaction,
       shows t1 entry -> shows t2 entry ->
       Rewards.uniqueTransactions [t1; t2] = [t1].
Proof.
  intros Hws Hrun1 Hrun2 entry.
  destruct (award_success_effect uid ws title net1 w w1 Hws Hrun1)
    as (Hledger1 & _ & Hbal1).
  destruct (award_success_effect uid ws title net2 w1 w2 Hws Hrun2)
    as (Hledger2 & _ & Hbal2).
  split; [| split].
  - rewrite Hledger2, Hledger1, <- app_assoc. reflexivity.
  - rewrite Hbal2, Hbal1. lia.
  - intros t1 t2 (Ha1 & Hd1 & Hk1) (Ha2 & Hd2 & Hk2).
    assert (Hkey : Rewards.transaction_key t2 = Rewards.transaction_key t1).
    { unfold Rewards.transaction_key. congruence. }
    rewrite uniqueTransactions_first_seen. cbn [first_seen Rewards.has existsb].
    rewrite Hkey, String.eqb_refl. reflexivity.
Qed.

Lemma repeated_report_is_listed_once_witness :
  let w1 := snd (updateUserTokensForReport "u1" "small" "Beach cleanup"
                   anonymous_net fresh_world) in
  let w2 := snd (updateUserTokensForReport "u1" "small" "Beach cleanup"
                   anonymous_net w1) in
  let entry := ledger_entry "u1" ("small", "Beach cleanup") in
  token_transactions (db w2)
  = token_transactions (db fresh_world) ++ [entry; entry]
  /\ stored_balance "u1" (db w2)
     = stored_balance "u1" (db fresh_world) + 2 * getTokensForWasteSize "small"
  /\ Rewards.uniqueTransactions [beach_row_new; beach_row_old] = [beach_row_new].
Proof.
  intros w1 w2 entry.
  destruct (repeated_report_is_listed_once "u1" "small" "Beach cleanup"
              anonymous_net anonymous_net fresh_world w1 w2)
    as (Hledger & Hbalance & Hlisted).
  - left; reflexivity.
  - reflexivity.
  - reflexivity.
  - split; [exact Hledger |]. split; [exact Hbalance |].
    apply Hlisted; repeat split.
Defined.

(* ------------------------------------------------------------------ *)
(** ** The level targets of the rewards page *)

(** The bands of the threshold function. *)
Lemma level_threshold_bands (b : Z) :
  (b < 50 -> level_threshold b = 1)
  /\ (50 <= b < 150 -> level_threshold b = 2)
  /\ (150 <= b < 300 -> level_threshold b = 3)
  /\ (300 <= b < 500 -> level_threshold b = 4)
  /\ (500 <= b -> level_threshold b = 5).
Proof.
  unfold level_threshold. rewrite !Z.geb_leb.
  repeat split; intros H;
    repeat match goal with
           | |- context [?x <=? ?y] => destruct (Z.leb_spec x y)
           end; lia.
Qed.

(** X8. For an account whose level agrees with its balance and is below
    5, the target of [getNextLevelTarget] is the first balance of the next
    level: the balance is below it, [getTokensForNextLevel] is the
    positive distance to it, earning that many tokens gives the next
    level, and earning fewer leaves the level as it is.  At level 5 both
    functions give 0. *)
Theorem next_level_target_is_next_threshold (t : Rewards.UserTokens) :
  Rewards.level t = level_threshold (Rewards.balance t) ->
  let target := Rewards.getNextLevelTarget (Some t) in
  let missing := Rewards.getTokensForNextLevel (Some t) in
  (Rewards.balance t < 500 ->
   missing = target - Rewards.balance t
   /\ 0 < missing
   /\ level_threshold (Rewards.balance t + missing) = Rewards.level t + 1
   /\ forall n : Z,
        0 <= n < missing ->
        level_threshold (Rewards.balance t + n) = Rewards.level t)
  /\ (500 <= Rewards.balance t -> target = 0 /\ missing = 0).
Proof.
  destruct t as [b l]. cbn [Rewards.level Rewards.balance]. intros Hlevel.
  unfold Rewards.getTokensForNextLevel, Rewards.getNextLevelTarget.
  cbn [Rewards.level Rewards.balance].
  destruct (level_threshold_bands b) as (H1 & H2 & H3 & H4 & H5).
  assert (Hband : b < 50 \/ 50 <= b < 150 \/ 150 <= b < 300
                  \/ 300 <= b < 500 \/ 500 <= b) by lia.
  destruct Hband as [Hb | [Hb | [Hb | [Hb | Hb]]]].
  - rewrite Hlevel, (H1 Hb). cbv [Z.eqb Pos.eqb]. split; [intros _ | lia].
    split; [reflexivity |]. split; [lia |]. split.
    + apply (level_threshold_bands (b + (50 - b))). lia.
    + intros n Hn. apply (level_threshold_bands (b + n)). lia.
  - rewrite Hlevel, (H2 Hb). cbv [Z.eqb Pos.eqb]. split; [intros _ | lia].
    split; [reflexivity |]. split; [lia |]. split.
    + apply (level_threshold_bands (b + (150 - b))). lia.
    + intros n Hn. apply (level_threshold_bands (b + n)). lia.
  - rewrite Hlevel, (H3 Hb). cbv [Z.eqb Pos.eqb]. split; [intros _ | lia].
    split; [reflexivity |]. split; [lia |]. split.
    + apply (level_threshold_bands (b + (300 - b))). lia.
    + intros n Hn. apply (level_threshold_bands (b + n)). lia.
  - rewrite Hlevel, (H4 Hb). cbv [Z.eqb Pos.eqb]. split; [intros _ | lia].
    split; [reflexivity |]. split; [lia |]. split.
    + apply (level_threshold_bands (b + (500 - b))). lia.
    + intros n Hn. apply (level_threshold_bands (b + n)). lia.
  - rewrite Hlevel, (H5 Hb). cbv [Z.eqb Pos.eqb]. split; [lia | intros _; split; reflexivity].
Qed.

Lemma next_level_target_is_next_threshold_witness :
  let t := {| Rewards.balance := 60; Rewards.level := 2 |} in
  Rewards.getTokensForNextLevel (Some t) = Rewards.getNextLevelTarget (Some t) - 60
  /\ 0 < Rewards.getTokensForNextLevel (Some t)
  /\ level_threshold (60 + Rewards.getTokensForNextLevel (Some t)) = 2 + 1.
Proof.
  intros t.
  destruct (next_level_target_is_next_threshold t eq_refl) as [Hbelow _].
  destruct Hbelow as (Hmissing & Hpos & Hnext & _); [cbn; lia |].
  split; [exact Hmissing |]. split; [exact Hpos | exact Hnext].
Defined.

(* ------------------------------------------------------------------ *)
(** ** Membership and resolution together *)

(** After [addAdminUser] has answered [true] the user has exactly one
    membership row. *)
Lemma addAdminUser_true_single (uid : string) (net : remote) (w w1 : world) :
  addAdminUser uid net w = (Returned true, w1) ->
  admins_of uid (admin_users (db w1)) = [ {| admin_user_id := uid |} ].
Proof.
  intros Hrun. unfold addAdminUser in Hrun. run_async in Hrun.
  destruct (fault_of net (SelectAdminUsers uid)); cbn in Hrun;
    try discriminate Hrun.
  destruct (admins_of uid (admin_users (db w))) as [| r [| r' rest]] eqn:Hrows;
    cbn in Hrun; try discriminate Hrun.
  - destruct (fault_of net (InsertAdminUsers _)); cbn in Hrun;
      try discriminate Hrun.
    injection Hrun as <-. cbn. rewrite admins_of_app, Hrows.
    apply admins_of_self.
  - injection Hrun as <-. cbn. rewrite Hrows. f_equal.
    apply (admins_of_owner uid (admin_users (db w))).
    rewrite Hrows. left. reflexivity.
Qed.

(** X9. Membership, once ensured, is what the resolver finds: after
    [addAdminUser] has answered [true] for a non-empty user id,
    [checkUserIsAdmin] answers [true] for that user under any session
    that can be fetched, whatever its email, as long as the membership
    lookup goes through. *)
Theorem member_is_admin
  (adminEmail uid : string) (net net' : remote) (w w1 : world)
  (d : option AuthData) :
  uid <> "" ->
  addAdminUser uid net w = (Returned true, w1) ->
  auth_session net' = Resolves d ->
  fault_of net' (SelectAdminUsers uid) = Healthy ->
  fst (checkUserIsAdmin adminEmail uid net' w1) = Returned true.
Proof.
  intros Hid Hadd Hsession Hlookup.
  pose proof (addAdminUser_true_single uid net w w1 Hadd) as Hrow.
  unfold checkUserIsAdmin. rewrite (guard_passes uid Hid).
  run_async. rewrite Hsession. cbn.
  destruct (email_is_admin adminEmail d); [reflexivity |].
  cbn. rewrite Hlookup, Hrow. reflexivity.
Qed.

Lemma member_is_admin_witness :
  fst (checkUserIsAdmin sample_admin_email "u1" visitor_net
         (snd (addAdminUser "u1" admin_net fresh_world)))
  = Returned true.
Proof.
  apply (member_is_admin sample_admin_email "u1" admin_net visitor_net
           fresh_world _ visitor_session).
  - discriminate.
  - reflexivity.
  - reflexivity.
  - reflexivity.
Defined.

(** X10. [checkUserIsAdmin] only reads: for every user id, network and
    store it returns a boolean, leaves every table as it was, and sends at
    most three requests, always a beginning of: fetch the session, look
    the membership up, call the remote procedure. *)
Theorem checkUserIsAdmin_only_reads
  (adminEmail uid : string) (net : remote) (w : world) :
  exists (answer : bool) (w' : world) (n : nat),
    checkUserIsAdmin adminEmail uid net w = (Returned answer, w')
    /\ db w' = db w
    /\ log w'
       = log w ++ firstn n [AuthGetUser; SelectAdminUsers uid; RpcIsAdmin uid].
Proof.
  unfold checkUserIsAdmin.
  destruct (negb (truthy_string uid)).
  { exists false, w, 0%nat. cbn. rewrite app_nil_r. repeat split. }
  run_async.
  destruct (auth_session net) as [d |];
    [| eexists _, _, 1%nat; repeat split].
  destruct (email_is_admin adminEmail d) eqn:Hmail;
    [eexists _, _, 1%nat; repeat split |].
  destruct (fault_of net (SelectAdminUsers uid)); cbn;
    [ destruct (maybeSingle _) as [[?|] [?|]]; cbn | |
      rewrite ?Hmail; eexists _, _, 2%nat; cbn;
      rewrite <- ?app_assoc; repeat split ];
    try (eexists _, _, 2%nat; cbn; rewrite <- ?app_assoc; repeat split; fail);
    destruct (is_admin_rpc net uid) as [[[[| [|] | |]|] [?|]] |]; cbn;
    eexists _, _, 3%nat; cbn; rewrite <- ?app_assoc; repeat split.
Qed.

(* ------------------------------------------------------------------ *)
(** ** The other functions of adminUtils and dbUtils *)

Tactic Notation "run_page" :=
  unfold caught, and_then, throw, setIsAdmin, setError, setUserTokens,
    setTransactions, setLoadingRedemption, signUp, signInWithPassword,
    insert_redeemed_rewards, insert_spent, update_balance, get_rewards,
    Page.new_Date_toISOString, show, set_manager, set_rewards, ask, write,
    with_db, note, on_store, pure.

Tactic Notation "run_page" "in" hyp(H) :=
  unfold caught, and_then, throw, setIsAdmin, setError, setUserTokens,
    setTransactions, setLoadingRedemption, signUp, signInWithPassword,
    insert_redeemed_rewards, insert_spent, update_balance, get_rewards,
    Page.new_Date_toISOString, show, set_manager, set_rewards, ask, write,
    with_db, note, on_store, pure in H.

(** No failure of the store escapes [addAdminUser]. *)
Lemma addAdminUser_never_throws (uid : string) (net : remote) (w : world) :
  exists (answer : bool) (w' : world),
    addAdminUser uid net w = (Returned answer, w').
Proof.
  unfold addAdminUser. run_async.
  destruct (fault_of net (SelectAdminUsers uid)); cbn;
    [| eexists _, _; reflexivity | eexists _, _; reflexivity].
  destruct (admins_of uid (admin_users (db w))) as [| r [| r' rest]]; cbn;
    [| eexists _, _; reflexivity | eexists _, _; reflexivity].
  destruct (fault_of net (InsertAdminUsers _)); cbn; eexists _, _; reflexivity.
Qed.

(** X11. [addUserToAdminTable] refuses the empty user id without sending
    anything; for any other id it answers exactly as [addAdminUser] does
    and leaves the store as [addAdminUser] leaves it.  Its handler is
    never entered: the toast "Failed to add user as admin" is never
    shown. *)
Theorem addUserToAdminTable_is_guarded_addAdminUser
  (uid : string) (o : outside) (p : page) :
  (uid = "" -> addUserToAdminTable uid o p = (Returned false, p))
  /\ (uid <> "" ->
      exists (answer : bool) (w' : world),
        addAdminUser uid (tables o) (store p) = (Returned answer, w')
        /\ addUserToAdminTable uid o p
           = (Returned answer,
              {| store := w';
                 redeemed_rewards := redeemed_rewards p;
                 calls := calls p;
                 toasts := toasts p;
                 manager := manager p;
                 rewards := rewards p |}))
  /\ toasts (snd (addUserToAdminTable uid o p)) = toasts p.
Proof.
  unfold addUserToAdminTable.
  destruct (addAdminUser_never_throws uid (tables o) (store p))
    as (answer & w' & Hadd).
  split; [| split].
  - intros ->. reflexivity.
  - intros Hid. rewrite (guard_passes uid Hid).
    exists answer, w'. split; [exact Hadd |].
    run_page. rewrite Hadd. reflexivity.
  - destruct (negb (truthy_string uid)); [reflexivity |].
    run_page. rewrite Hadd. reflexivity.
Qed.

Lemma addUserToAdminTable_is_guarded_addAdminUser_witness :
  addUserToAdminTable "" (calm_outside admin_net) (blank_page fresh_world)
  = (Returned false, blank_page fresh_world)
  /\ exists (answer : bool) (w' : world),
       addAdminUser "u1" admin_net fresh_world = (Returned answer, w')
       /\ addUserToAdminTable "u1" (calm_outside admin_net)
            (blank_page fresh_world)
          = (Returned answer,
             {| store := w';
                redeemed_rewards := [];
                calls := [];
                toasts := [];
                manager := manager (blank_page fresh_world);
                rewards := rewards (blank_page fresh_world) |}).
Proof.
  split.
  - destruct (addUserToAdminTable_is_guarded_addAdminUser ""
                (calm_outside admin_net) (blank_page fresh_world))
      as (Hempty & _).
    apply Hempty. reflexivity.
  - destruct (addUserToAdminTable_is_guarded_addAdminUser "u1"
                (calm_outside admin_net) (blank_page fresh_world))
      as (_ & Hother & _).
    apply Hother. discriminate.
Defined.

(** [addAdminUser] writes to the administrators only. *)
Lemma addAdminUser_frame (uid : string) (net : remote) (w : world) :
  exists (answer : bool) (w' : world),
    addAdminUser uid net w = (Returned answer, w')
    /\ token_transactions (db w') = token_transactions (db w)
    /\ user_tokens (db w') = user_tokens (db w).
Proof.
  unfold addAdminUser. run_async.
  destruct (fault_of net (SelectAdminUsers uid)); cbn;
    [| eexists _, _; repeat split | eexists _, _; repeat split].
  destruct (admins_of uid (admin_users (db w))) as [| r [| r' rest]]; cbn;
    [| eexists _, _; repeat split | eexists _, _; repeat split].
  destruct (fault_of net (InsertAdminUsers _)); cbn; eexists _, _; repeat split.
Qed.

(** On a network that lets every request through, [addAdminUser] answers
    [true] and leaves exactly one membership row of the user. *)
Lemma addAdminUser_healthy (uid : string) (net : remote) (w : world) :
  all_healthy net ->
  (List.length (admins_of uid (admin_users (db w))) <= 1)%nat ->
  exists w' : world,
    addAdminUser uid net w = (Returned true, w')
    /\ admins_of uid (admin_users (db w')) = [ {| admin_user_id := uid |} ].
Proof.
  intros Hnet Hone.
  assert (Hrun : exists w', addAdminUser uid net w = (Returned true, w')).
  { unfold addAdminUser. run_async. rewrite !Hnet. cbn.
    destruct (admins_of uid (admin_users (db w))) as [| r [| r' rest]];
      cbn in Hone |- *; [ | | lia ].
    - rewrite Hnet. cbn. eexists. reflexivity.
    - eexists. reflexivity. }
  destruct Hrun as [w' Hrun]. exists w'. split; [exact Hrun |].
  apply (addAdminUser_true_single uid net w w' Hrun).
Qed.

(** A user with exactly one membership row is an administrator for the
    resolver. *)
Lemma single_member_is_admin
  (adminEmail uid : string) (net : remote) (w : world)
  (d : option AuthData) (row : admin_users_row) :
  uid <> "" ->
  admins_of uid (admin_users (db w)) = [row] ->
  auth_session net = Resolves d ->
  fault_of net (SelectAdminUsers uid) = Healthy ->
  fst (checkUserIsAdmin adminEmail uid net w) = Returned true.
Proof.
  intros Hid Hrow Hsession Hlookup.
  unfold checkUserIsAdmin. rewrite (guard_passes uid Hid).
  run_async. rewrite Hsession. cbn.
  destruct (email_is_admin adminEmail d); [reflexivity |].
  cbn. rewrite Hlookup, Hrow. reflexivity.
Qed.

(** The block after the sign-up never throws and writes to the
    administrators only. *)
Lemma add_signed_in_admin_frame
  (adminEmail password : string) (o : outside) (p : page) :
  exists p' : page,
    add_signed_in_admin adminEmail password o p = (Returned tt, p')
    /\ token_transactions (db (store p')) = token_transactions (db (store p))
    /\ user_tokens (db (store p')) = user_tokens (db (store p))
    /\ redeemed_rewards p' = redeemed_rewards p
    /\ toasts p' = toasts p
    /\ manager p' = manager p
    /\ rewards p' = rewards p
    /\ calls p' = calls p ++ [SignInWithPassword adminEmail password].
Proof.
  unfold add_signed_in_admin. run_page.
  destruct (signIn_settles o adminEmail password) as [[[[u |]] |] |];
    try (cbn; eexists; repeat split; fail).
  cbn [store redeemed_rewards calls toasts manager rewards user].
  destruct (addAdminUser_frame (id u) (tables o) (store p))
    as (answer & w' & Hadd & Hledger & Htokens).
  rewrite Hadd. cbn. eexists. repeat split; assumption.
Qed.

(** X12. [ensureAdminAccount] answers by the sign-up alone: [true] when
    the sign-up succeeds or reports the address as already registered,
    [false] when it fails otherwise or throws.  What happens next, the
    sign-in and the membership insert, cannot change the answer or throw;
    the call shows no toast and never touches the accounts or the
    ledger. *)
Theorem ensureAdminAccount_answers_by_sign_up
  (adminEmail password : string) (o : outside) (p : page) :
  exists p' : page,
    ensureAdminAccount adminEmail password o p
    = (Returned (sign_up_accepted (signUp_settles o adminEmail password)), p')
    /\ token_transactions (db (store p')) = token_transactions (db (store p))
    /\ user_tokens (db (store p')) = user_tokens (db (store p))
    /\ toasts p' = toasts p.
Proof.
  unfold ensureAdminAccount, sign_up_accepted.
  unfold caught at 1, and_then at 1, signUp, ask.
  destruct (signUp_settles o adminEmail password) as [[e |] |];
    [ destruct (includes (auth_message e) "already registered") | | ].
  - unfold and_then.
    destruct (add_signed_in_admin_frame adminEmail password o
                (note (SignUp adminEmail password) p))
      as (p' & Hrun & Hledger & Htokens & _ & Htoasts & _).
    rewrite Hrun. exists p'. repeat split; assumption.
  - eexists. repeat split.
  - unfold and_then.
    destruct (add_signed_in_admin_frame adminEmail password o
                (note (SignUp adminEmail password) p))
      as (p' & Hrun & Hledger & Htokens & _ & Htoasts & _).
    rewrite Hrun. exists p'. repeat split; assumption.
  - eexists. repeat split.
Qed.

(** X13. When the sign-up is accepted and the sign-in gives a user with a
    non-empty id, on tables that let every request through and hold at
    most one membership row of that user, [ensureAdminAccount] leaves the
    user with exactly one membership row; from then on
    [checkUserIsAdmin] answers [true] for that user under any session
    that can be fetched, as long as the membership lookup goes through. *)
Theorem ensureAdminAccount_makes_member
  (adminEmail password : string) (o : outside) (p : page) (u : User) :
  sign_up_accepted (signUp_settles o adminEmail password) = true ->
  signIn_settles o adminEmail password = Resolves (Some {| user := Some u |}) ->
  id u <> "" ->
  all_healthy (tables o) ->
  (List.length (admins_of (id u) (admin_users (db (store p)))) <= 1)%nat ->
  exists p' : page,
    ensureAdminAccount adminEmail password o p = (Returned true, p')
    /\ admins_of (id u) (admin_users (db (store p')))
       = [ {| admin_user_id := id u |} ]
    /\ forall (net' : remote) (d : option AuthData),
         auth_session net' = Resolves d ->
         fault_of net' (SelectAdminUsers (id u)) = Healthy ->
         fst (checkUserIsAdmin adminEmail (id u) net' (store p'))
         = Returned true.
Proof.
  intros Haccepted Hsign Hid Hnet Hone.
  destruct (addAdminUser_healthy (id u) (tables o) (store p) Hnet Hone)
    as (w' & Hadd & Hrow).
  assert (Hblock : add_signed_in_admin adminEmail password o
                     (note (SignUp adminEmail password) p)
                   = (Returned tt,
                      {| store := w';
                         redeemed_rewards := redeemed_rewards p;
                         calls := (calls p ++ [SignUp adminEmail password])
                                  ++ [SignInWithPassword adminEmail password];
                         toasts := toasts p;
                         manager := manager p;
                         rewards := rewards p |})).
  { unfold add_signed_in_admin. run_page. rewrite Hsign.
    cbn [store redeemed_rewards calls toasts manager rewards user].
    rewrite Hadd. reflexivity. }
  eexists. split; [| split].
  - unfold ensureAdminAccount, sign_up_accepted in *.
    unfold caught at 1, and_then at 1, signUp, ask.
    destruct (signUp_settles o adminEmail password) as [[e |] |];
      [ rewrite Haccepted | | discriminate Haccepted ];
      unfold and_then; rewrite Hblock; reflexivity.
  - exact Hrow.
  - intros net' d Hsession Hlookup.
    apply (single_member_is_admin adminEmail (id u) net' w' d _ Hid Hrow
             Hsession Hlookup).
Qed.

Lemma ensureAdminAccount_makes_member_witness :
  exists p' : page,
    ensureAdminAccount sample_admin_email "secret" (calm_outside admin_net)
      (blank_page fresh_world) = (Returned true, p')
    /\ admins_of "a1" (admin_users (db (store p')))
       = [ {| admin_user_id := "a1" |} ]
    /\ forall (net' : remote) (d : option AuthData),
         auth_session net' = Resolves d ->
         fault_of net' (SelectAdminUsers "a1") = Healthy ->
         fst (checkUserIsAdmin sample_admin_email "a1" net' (store p'))
         = Returned true.
Proof.
  apply (ensureAdminAccount_makes_member sample_admin_email "secret"
           (calm_outside admin_net) (blank_page fresh_world) administrator).
  - reflexivity.
  - reflexivity.
  - discriminate.
  - intros rq. reflexivity.
  - vm_compute. lia.
Defined.

(** X14. [setupAdminUsersTable] never throws and touches neither the
    store, nor the toasts, nor the state of the components: it only makes
    calls.  The procedure that creates the table is called exactly when
    the probe resolves to an error that mentions a missing table (its
    message contains "does not exist" or "relation", or its code is
    42P01); the SQL fallback is sent exactly when, in addition, that
    procedure resolves to an error. *)
Theorem setupAdminUsersTable_creates_only_missing_table
  (o : outside) (p : page) :
  exists sent : list call,
    setupAdminUsersTable o p
    = (Returned tt,
       {| store := store p;
          redeemed_rewards := redeemed_rewards p;
          calls := calls p ++ sent;
          toasts := toasts p;
          manager := manager p;
          rewards := rewards p |})
    /\ (In RpcCreateAdminUsersTable sent <-> probe_finds_table_missing o)
    /\ (In RpcExecSql sent <->
        probe_finds_table_missing o
        /\ exists e, create_table_settles o = Resolves (Some e)).
Proof.
  unfold setupAdminUsersTable, probe_finds_table_missing. run_page.
  destruct (probe_settles o) as [[e |] |] eqn:Hprobe.
  - destruct (table_is_missing e) eqn:Hmissing.
    + cbn. destruct (create_table_settles o) as [[e' |] |] eqn:Hcreate.
      * cbn. destruct (exec_sql_settles o) as [[e'' |] |]; cbn;
          exists [ProbeAdminUsers; RpcCreateAdminUsersTable; RpcExecSql];
          rewrite <- !app_assoc; cbn; (split; [reflexivity |]);
          (split; split; intros _;
           [ exists e; split; [reflexivity | exact Hmissing]
           | right; left; reflexivity
           | split; [exists e; split; [reflexivity | exact Hmissing]
                    | exists e'; reflexivity]
           | right; right; left; reflexivity ]).
      * cbn. exists [ProbeAdminUsers; RpcCreateAdminUsersTable].
        rewrite <- !app_assoc. cbn. split; [reflexivity |].
        split; split.
        -- intros _. exists e. split; [reflexivity | exact Hmissing].
        -- intros _. right; left; reflexivity.
        -- intros [E | [E | []]]; discriminate E.
        -- intros (_ & e'' & E). discriminate E.
      * cbn. exists [ProbeAdminUsers; RpcCreateAdminUsersTable].
        rewrite <- !app_assoc. cbn. split; [reflexivity |].
        split; split.
        -- intros _. exists e. split; [reflexivity | exact Hmissing].
        -- intros _. right; left; reflexivity.
        -- intros [E | [E | []]]; discriminate E.
        -- intros (_ & e'' & E). discriminate E.
    + cbn. exists [ProbeAdminUsers]. split; [reflexivity |].
      split; split.
      * intros [E | []]; discriminate E.
      * intros (e0 & E & Hm). injection E as <-. congruence.
      * intros [E | []]; discriminate E.
      * intros ((e0 & E & Hm) & _). injection E as <-. congruence.
  - cbn. exists [ProbeAdminUsers]. split; [reflexivity |].
    split; split.
    * intros [E | []]; discriminate E.
    * intros (e0 & E & _). discriminate E.
    * intros [E | []]; discriminate E.
    * intros ((e0 & E & _) & _). discriminate E.
  - cbn. exists [ProbeAdminUsers]. split; [reflexivity |].
    split; split.
    * intros [E | []]; discriminate E.
    * intros (e0 & E & _). discriminate E.
    * intros [E | []]; discriminate E.
    * intros ((e0 & E & _) & _). discriminate E.
Qed.

(** The resolver returns, writes nothing, and says [true] for non-empty
    ids only. *)
Lemma checkUserIsAdmin_frame
  (adminEmail uid : string) (net : remote) (w : world) :
  exists (answer : bool) (w' : world),
    checkUserIsAdmin adminEmail uid net w = (Returned answer, w')
    /\ db w' = db w
    /\ (answer = true -> uid <> "").
Proof.
  unfold checkUserIsAdmin.
  destruct (String.eqb_spec uid "") as [-> | Hid].
  { exists false, w. repeat split. discriminate. }
  rewrite (guard_passes uid Hid). run_async.
  destruct (auth_session net) as [d |];
    [| eexists _, _; repeat split; intros _; exact Hid].
  destruct (email_is_admin adminEmail d) eqn:Hmail;
    [eexists _, _; repeat split; intros _; exact Hid |].
  destruct (fault_of net (SelectAdminUsers uid)); cbn;
    [ destruct (maybeSingle _) as [[?|] [?|]]; cbn | |
      rewrite ?Hmail; eexists _, _; repeat split; intros _; exact Hid ];
    try (eexists _, _; repeat split; intros _; exact Hid);
    destruct (is_admin_rpc net uid) as [[[[| [|] | |]|] [?|]] |]; cbn;
    eexists _, _; repeat split; intros _; exact Hid.
Qed.

(** X15. [checkAdminStatus] of the event manager records what the
    resolver says: [isAdmin] becomes the answer of [checkUserIsAdmin] for
    the signed-in user, and no toast is shown.  When the answer is
    [false] the error text is set and the store is only read.  When it is
    [true] the error is cleared and the user is added to the
    administrators: on tables that let every request through and hold at
    most one membership row of the user, the user ends with exactly one
    membership row. *)
Theorem checkAdminStatus_records_resolution
  (adminEmail : string) (u : User) (o : outside) (p : page) :
  exists (answer : bool) (w1 : world) (p' : page),
    checkUserIsAdmin adminEmail (id u) (tables o) (store p)
    = (Returned answer, w1)
    /\ checkAdminStatus adminEmail (Some u) o p = (Returned tt, p')
    /\ isAdmin (manager p') = Some answer
    /\ toasts p' = toasts p
    /\ (answer = false ->
        manager_error (manager p')
        = Some "You don't have admin privileges to manage events. Please contact an administrator."
        /\ store p' = w1)
    /\ (answer = true ->
        manager_error (manager p') = None
        /\ (all_healthy (tables o) ->
            (List.length (admins_of (id u) (admin_users (db (store p)))) <= 1)%nat ->
            admins_of (id u) (admin_users (db (store p')))
            = [ {| admin_user_id := id u |} ])).
Proof.
  destruct (checkUserIsAdmin_frame adminEmail (id u) (tables o) (store p))
    as (answer & w1 & Hcheck & Hdb & Hid).
  exists answer, w1.
  destruct answer.
  - destruct (addAdminUser_never_throws (id u) (tables o) w1)
      as (added & w2 & Hadd).
    eexists. split; [exact Hcheck |]. split; [| split; [| split; [| split]]].
    + unfold checkAdminStatus, addUserToAdminTable.
      rewrite (guard_passes (id u) (Hid eq_refl)).
      run_page. rewrite Hcheck.
      cbn [store redeemed_rewards calls toasts manager rewards negb].
      rewrite Hadd. reflexivity.
    + reflexivity.
    + reflexivity.
    + discriminate.
    + intros _. split; [reflexivity |].
      intros Hnet Hone. cbn [store].
      rewrite <- Hdb in Hone.
      destruct (addAdminUser_healthy (id u) (tables o) w1 Hnet Hone)
        as (w2' & Hadd' & Hrow).
      rewrite Hadd in Hadd'. injection Hadd' as _ <-. exact Hrow.
  - eexists. split; [exact Hcheck |]. split; [| split; [| split; [| split]]].
    + unfold checkAdminStatus. run_page. rewrite Hcheck. reflexivity.
    + reflexivity.
    + reflexivity.
    + intros _. split; reflexivity.
    + discriminate.
Qed.

Lemma checkAdminStatus_records_resolution_witness :
  (exists p' : page,
      checkAdminStatus sample_admin_email (Some administrator)
        (calm_outside admin_net) (blank_page fresh_world) = (Returned tt, p')
      /\ isAdmin (manager p') = Some true
      /\ manager_error (manager p') = None
      /\ admins_of "a1" (admin_users (db (store p')))
         = [ {| admin_user_id := "a1" |} ])
  /\ (exists p' : page,
        checkAdminStatus sample_admin_email (Some visitor)
          (calm_outside visitor_net) (blank_page fresh_world) = (Returned tt, p')
        /\ isAdmin (manager p') = Some false
        /\ manager_error (manager p')
           = Some "You don't have admin privileges to manage events. Please contact an administrator."
        /\ db (store p') = db fresh_world).
Proof.
  split.
  - destruct (checkAdminStatus_records_resolution sample_admin_email
                administrator (calm_outside admin_net) (blank_page fresh_world))
      as (answer & w1 & p' & Hcheck & Hrun & Hflag & _ & _ & Htrue).
    assert (Hanswer : answer = true).
    { vm_compute in Hcheck. injection Hcheck as <- _. reflexivity. }
    exists p'. split; [exact Hrun |]. subst answer.
    destruct (Htrue eq_refl) as [Herror Hmember].
    split; [exact Hflag |]. split; [exact Herror |].
    apply Hmember; [intros rq; reflexivity | vm_compute; lia].
  - destruct (checkAdminStatus_records_resolution sample_admin_email
                visitor (calm_outside visitor_net) (blank_page fresh_world))
      as (answer & w1 & p' & Hcheck & Hrun & Hflag & _ & Hfalse & _).
    assert (Hanswer : answer = false /\ db w1 = db fresh_world).
    { vm_compute in Hcheck. injection Hcheck as <- <-. split; reflexivity. }
    destruct Hanswer as [-> Hdb].
    exists p'. split; [exact Hrun |].
    destruct (Hfalse eq_refl) as [Herror Hstore].
    split; [exact Hflag |]. split; [exact Herror |].
    rewrite Hstore. exact Hdb.
Defined.

(* ------------------------------------------------------------------ *)
(** ** Redeeming a reward *)

Lemma set_balance_owner (uid : string) (b : Z) (stamp : string)
  (r : user_tokens_row) :
  user_id (set_balance uid b stamp r) = user_id r.
Proof.
  unfold set_balance. destruct (user_id r =? uid)%string; reflexivity.
Qed.

Lemma set_balance_level (uid : string) (b : Z) (stamp : string)
  (r : user_tokens_row) :
  level (set_balance uid b stamp r) = level r.
Proof.
  unfold set_balance. destruct (user_id r =? uid)%string; reflexivity.
Qed.

Lemma set_balance_other (uid : string) (b : Z) (stamp : string)
  (r : user_tokens_row) :
  user_id r <> uid -> set_balance uid b stamp r = r.
Proof.
  intros Hne. unfold set_balance.
  destruct (String.eqb_spec (user_id r) uid); [contradiction | reflexivity].
Qed.

Lemma set_balance_mine (uid : string) (b : Z) (stamp : string)
  (r : user_tokens_row) :
  user_id r = uid -> balance (set_balance uid b stamp r) = b.
Proof.
  intros E. unfold set_balance. rewrite E, String.eqb_refl. reflexivity.
Qed.

Lemma tokens_of_set_balance (uid other : string) (b : Z) (stamp : string)
  (rows : list user_tokens_row) :
  tokens_of other (map (set_balance uid b stamp) rows)
  = map (set_balance uid b stamp) (tokens_of other rows).
Proof.
  unfold tokens_of.
  induction rows as [| r rows IH]; [reflexivity |].
  cbn [map filter]. rewrite set_balance_owner, IH.
  destruct (user_id r =? other)%string; reflexivity.
Qed.

(** X16. Nothing is redeemed without a signed-in user, without a fetched
    account, or when the balance the page shows is below the cost: no
    call is made and the store is untouched; in the last case the page
    shows one toast that names the missing tokens. *)
Theorem redemption_is_guarded
  (user : option User) (reward : RewardItem) (o : outside) (p : page) :
  (user = None \/ userTokens (rewards p) = None ->
   handleRedeemReward user reward o p = (Returned tt, p))
  /\ (forall (u : User) (tokens : Rewards.UserTokens),
         user = Some u ->
         userTokens (rewards p) = Some tokens ->
         Rewards.balance tokens < token_cost reward ->
         handleRedeemReward user reward o p
         = (Returned tt,
            {| store := store p;
               redeemed_rewards := redeemed_rewards p;
               calls := calls p;
               toasts := toasts p ++ [not_enough_toast tokens reward];
               manager := manager p;
               rewards := rewards p |})).
Proof.
  split.
  - intros [-> | Hnone]; unfold handleRedeemReward; run_page.
    + reflexivity.
    + rewrite Hnone. destruct user; reflexivity.
  - intros u tokens -> Htokens Hlow.
    unfold handleRedeemReward. run_page. rewrite Htokens.
    apply Z.ltb_lt in Hlow. rewrite Hlow. reflexivity.
Qed.

Lemma redemption_is_guarded_witness :
  handleRedeemReward None gift_card (calm_outside anonymous_net) rewards_page_60
  = (Returned tt, rewards_page_60)
  /\ handleRedeemReward (Some visitor) gift_card (calm_outside anonymous_net)
       rewards_page_60
     = (Returned tt,
        {| store := store rewards_page_60;
           redeemed_rewards := redeemed_rewards rewards_page_60;
           calls := calls rewards_page_60;
           toasts := toasts rewards_page_60
                     ++ [not_enough_toast
                           {| Rewards.balance := 60; Rewards.level := 2 |}
                           gift_card];
           manager := manager rewards_page_60;
           rewards := rewards rewards_page_60 |}).
Proof.
  split.
  - destruct (redemption_is_guarded None gift_card
                (calm_outside anonymous_net) rewards_page_60) as [Hnobody _].
    apply Hnobody. left. reflexivity.
  - destruct (redemption_is_guarded (Some visitor) gift_card
                (calm_outside anonymous_net) rewards_page_60) as [_ Hlow].
    apply (Hlow visitor); [reflexivity | reflexivity | cbn; lia].
Defined.

(** What a redemption does when its three writes go through. *)
Lemma redemption_goes_through
  (u : User) (tokens : Rewards.UserTokens) (reward : RewardItem)
  (o : outside) (p : page) :
  userTokens (rewards p) = Some tokens ->
  token_cost reward <= Rewards.balance tokens ->
  writes_go_through o ->
  exists (shown : list Rewards.TokenTransaction) (sent : list call),
    handleRedeemReward (Some u) reward o p
    = (Returned tt,
       {| store :=
            {| db :=
                 {| token_transactions :=
                      token_transactions (db (store p)) ++ [spent_entry u reward];
                    user_tokens :=
                      map (set_balance (id u)
                             (Rewards.balance tokens - token_cost reward)
                             (clock (tables o)))
                          (user_tokens (db (store p)));
                    admin_users := admin_users (db (store p)) |};
               log := log (store p) |};
          redeemed_rewards := redeemed_rewards p ++ [redemption_row o u reward];
          calls := calls p ++ sent;
          toasts :=
            toasts p
            ++ [ {| kind := Plain;
                    title := "Reward redeemed successfully!";
                    detail :=
                      Some ("You've redeemed " ++ reward_title reward
                            ++ ". It will be delivered to your address.")%string |} ];
          manager := manager p;
          rewards :=
            {| userTokens :=
                 Some {| Rewards.balance :=
                           Rewards.balance tokens - token_cost reward;
                         Rewards.level := Rewards.level tokens |};
               transactions := shown;
               redeeming := false |} |})
    /\ sent = [ InsertRedeemedRewards (id u) (reward_id reward) "pending";
                InsertSpent (spent_entry u reward) (generated_id o);
                UpdateBalance (id u)
                  (Rewards.balance tokens - token_cost reward)
                  (clock (tables o)) ]
    /\ (List.length shown <= 3)%nat
    /\ exists older,
         shown = {| Rewards.id := generated_id o;
                    Rewards.amount := token_cost reward;
                    Rewards.description := "Redeemed: " ++ reward_title reward;
                    Rewards.transaction_type := "spent";
                    Rewards.created_at := clock (tables o) |} :: older.
Proof.
  intros Htokens Hcost Hwrites.
  assert (Hge : (Rewards.balance tokens <? token_cost reward) = false)
    by (apply Z.ltb_ge; exact Hcost).
  unfold handleRedeemReward. run_page. rewrite Htokens, Hge.
  rewrite !Hwrites.
  cbn [store redeemed_rewards calls toasts manager rewards truthy error data ok
       redemption_id userTokens transactions redeeming db log].
  rewrite !Hwrites.
  cbn [store redeemed_rewards calls toasts manager rewards truthy error data ok
       redemption_id userTokens transactions redeeming db log].
  rewrite !Hwrites.
  cbn [store redeemed_rewards calls toasts manager rewards truthy error data ok
       redemption_id userTokens transactions redeeming db log].
  eexists _, _. split; [| split; [| split]].
  - unfold spent_entry, redemption_row. rewrite <- !app_assoc. reflexivity.
  - reflexivity.
  - apply firstn_le_length.
  - rewrite firstn_cons. eexists. reflexivity.
Qed.

(** X17. A redemption whose three writes go through records one pending
    redemption, adds one [spent] record of the cost to the ledger, and
    sets the balance of every account row of the user to the balance the
    page showed minus the cost, which is never negative.  The levels of
    all rows, the rows of other users and the administrators are left as
    they were, and the page ends with the reduced balance and without its
    busy flag. *)
Theorem redemption_deducts_shown_balance
  (u : User) (tokens : Rewards.UserTokens) (reward : RewardItem)
  (o : outside) (p : page) :
  userTokens (rewards p) = Some tokens ->
  token_cost reward <= Rewards.balance tokens ->
  writes_go_through o ->
  exists p' : page,
    handleRedeemReward (Some u) reward o p = (Returned tt, p')
    /\ redeemed_rewards p' = redeemed_rewards p ++ [redemption_row o u reward]
    /\ token_transactions (db (store p'))
       = token_transactions (db (store p)) ++ [spent_entry u reward]
    /\ admin_users (db (store p')) = admin_users (db (store p))
    /\ (forall r, In r (tokens_of (id u) (user_tokens (db (store p')))) ->
                  balance r = Rewards.balance tokens - token_cost reward
                  /\ 0 <= balance r)
    /\ map level (user_tokens (db (store p')))
       = map level (user_tokens (db (store p)))
    /\ (forall other, other <> id u ->
                      tokens_of other (user_tokens (db (store p')))
                      = tokens_of other (user_tokens (db (store p))))
    /\ userTokens (rewards p')
       = Some {| Rewards.balance := Rewards.balance tokens - token_cost reward;
                 Rewards.level := Rewards.level tokens |}
    /\ redeeming (rewards p') = false.
Proof.
  intros Htokens Hcost Hwrites.
  destruct (redemption_goes_through u tokens reward o p Htokens Hcost Hwrites)
    as (shown & sent & Hrun & _).
  eexists. split; [exact Hrun |].
  cbn [store redeemed_rewards rewards userTokens redeeming db
       token_transactions user_tokens admin_users].
  repeat split.
  - rewrite tokens_of_set_balance in H. apply in_map_iff in H.
    destruct H as (r0 & <- & Hin).
    apply set_balance_mine. apply (tokens_of_owner _ _ _ Hin).
  - rewrite tokens_of_set_balance in H. apply in_map_iff in H.
    destruct H as (r0 & <- & Hin).
    rewrite set_balance_mine by apply (tokens_of_owner _ _ _ Hin). lia.
  - rewrite map_map. apply map_ext. intros r. apply set_balance_level.
  - intros other Hne. rewrite tokens_of_set_balance.
    rewrite <- (map_id (tokens_of other (user_tokens (db (store p))))) at 2.
    apply map_ext_in. intros r Hin. apply set_balance_other.
    rewrite (tokens_of_owner _ _ _ Hin). exact Hne.
Qed.

Lemma redemption_deducts_shown_balance_witness :
  exists p' : page,
    handleRedeemReward (Some visitor) water_bottle (calm_outside anonymous_net)
      rewards_page_60 = (Returned tt, p')
    /\ token_transactions (db (store p'))
       = token_transactions (db (store rewards_page_60))
         ++ [spent_entry visitor water_bottle]
    /\ userTokens (rewards p')
       = Some {| Rewards.balance := 60 - token_cost water_bottle;
                 Rewards.level := 2 |}.
Proof.
  destruct (redemption_deducts_shown_balance visitor
              {| Rewards.balance := 60; Rewards.level := 2 |} water_bottle
              (calm_outside anonymous_net) rewards_page_60)
    as (p' & Hrun & _ & Hledger & _ & _ & _ & _ & Hshown & _).
  - reflexivity.
  - cbn. lia.
  - intros c. reflexivity.
  - exists p'. split; [exact Hrun |]. split; [exact Hledger | exact Hshown].
Defined.

(** X18. A redemption does not recompute the level.  For a user with one
    account row, after a redemption whose writes went through the row has
    the reduced balance and the level it had; so when the threshold
    function of the reduced balance differs from that level, the stored
    level no longer agrees with the stored balance. *)
Theorem redemption_keeps_stale_level
  (u : User) (tokens : Rewards.UserTokens) (reward : RewardItem)
  (o : outside) (p : page) (acct : user_tokens_row) :
  userTokens (rewards p) = Some tokens ->
  token_cost reward <= Rewards.balance tokens ->
  writes_go_through o ->
  tokens_of (id u) (user_tokens (db (store p))) = [acct] ->
  exists r : user_tokens_row,
    tokens_of (id u)
      (user_tokens (db (store (snd (handleRedeemReward (Some u) reward o p)))))
    = [r]
    /\ balance r = Rewards.balance tokens - token_cost reward
    /\ level r = level acct
    /\ (level_threshold (Rewards.balance tokens - token_cost reward)
        <> level acct ->
        ~ level_consistent r).
Proof.
  intros Htokens Hcost Hwrites Hsingle.
  destruct (redemption_goes_through u tokens reward o p Htokens Hcost Hwrites)
    as (shown & sent & Hrun & _).
  rewrite Hrun. cbn [snd store db user_tokens].
  rewrite tokens_of_set_balance, Hsingle. cbn [map].
  assert (Hown : user_id acct = id u).
  { apply (tokens_of_owner (id u) (user_tokens (db (store p)))).
    rewrite Hsingle. left. reflexivity. }
  eexists. split; [reflexivity |].
  rewrite set_balance_level, (set_balance_mine _ _ _ _ Hown).
  split; [reflexivity |]. split; [reflexivity |].
  intros Hdiffer Hcons. unfold level_consistent in Hcons.
  rewrite set_balance_level, (set_balance_mine _ _ _ _ Hown) in Hcons.
  apply Hdiffer. symmetry. exact Hcons.
Qed.

Lemma redemption_keeps_stale_level_witness :
  exists r : user_tokens_row,
    tokens_of "u1"
      (user_tokens
         (db (store (snd (handleRedeemReward (Some visitor) water_bottle
                            (calm_outside anonymous_net) rewards_page_60)))))
    = [r]
    /\ balance r = 40
    /\ level r = 2
    /\ ~ level_consistent r.
Proof.
  destruct (redemption_keeps_stale_level visitor
              {| Rewards.balance := 60; Rewards.level := 2 |} water_bottle
              (calm_outside anonymous_net) rewards_page_60
              {| user_id := "u1"; balance := 60; level := 2; updated_at := None |})
    as (r & Hrow & Hbalance & Hlevel & Hstale).
  - reflexivity.
  - cbn. lia.
  - intros c. reflexivity.
  - reflexivity.
  - exists r. split; [exact Hrow |]. split; [exact Hbalance |].
    split; [exact Hlevel |]. apply Hstale. cbn. discriminate.
Defined.

(** X19. The balance written by a redemption is computed from the balance
    the page fetched, not from the stored one.  When a report is rewarded
    after the page has fetched the account and a reward is redeemed before
    the page fetches again, the stored balance ends at the fetched balance
    minus the cost: the tokens of the report are gone from the balance,
    although the ledger holds both the [earned] and the [spent] record. *)
Theorem stale_redemption_loses_award
  (u : User) (tokens : Rewards.UserTokens) (reward : RewardItem)
  (ws title : string) (net : remote) (o : outside) (p : page) (w1 : world) :
  userTokens (rewards p) = Some tokens ->
  Rewards.balance tokens = stored_balance (id u) (db (store p)) ->
  recognized ws ->
  updateUserTokensForReport (id u) ws title net (store p) = (Returned true, w1) ->
  token_cost reward <= Rewards.balance tokens ->
  writes_go_through o ->
  let p' := snd (handleRedeemReward (Some u) reward o (over_store w1 p)) in
  stored_balance (id u) (db w1)
  = stored_balance (id u) (db (store p)) + getTokensForWasteSize ws
  /\ stored_balance (id u) (db (store p'))
     = stored_balance (id u) (db (store p)) - token_cost reward
  /\ token_transactions (db (store p'))
     = token_transactions (db (store p))
       ++ [ledger_entry (id u) (ws, title); spent_entry u reward].
Proof.
  intros Htokens Hshown Hws Haward Hcost Hwrites p'.
  destruct (award_success_effect (id u) ws title net (store p) w1 Hws Haward)
    as (Hledger & Hone & Hbalance).
  destruct (redemption_goes_through u tokens reward o (over_store w1 p)
              Htokens Hcost Hwrites) as (shown & sent & Hrun & _).
  subst p'. rewrite Hrun.
  cbn [snd store db user_tokens token_transactions over_store].
  split; [exact Hbalance |]. split.
  - unfold stored_balance at 1. cbn [user_tokens].
    rewrite tokens_of_set_balance.
    destruct (tokens_of (id u) (user_tokens (db w1))) as [| r [| ? ?]] eqn:Hrows;
      try discriminate Hone.
    cbn [map]. rewrite set_balance_mine; [lia |].
    apply (tokens_of_owner (id u) (user_tokens (db w1))).
    rewrite Hrows. left. reflexivity.
  - rewrite Hledger, <- app_assoc. reflexivity.
Qed.

Lemma stale_redemption_loses_award_witness :
  let w1 := snd (updateUserTokensForReport "u1" "large" "Dump site"
                   anonymous_net world_with_60) in
  let p' := snd (handleRedeemReward (Some visitor) water_bottle
                   (calm_outside anonymous_net)
                   (over_store w1 rewards_page_60)) in
  stored_balance "u1" (db w1)
  = stored_balance "u1" (db world_with_60) + getTokensForWasteSize "large"
  /\ stored_balance "u1" (db (store p'))
     = stored_balance "u1" (db world_with_60) - token_cost water_bottle
  /\ token_transactions (db (store p'))
     = token_transactions (db world_with_60)
       ++ [ledger_entry "u1" ("large", "Dump site");
           spent_entry visitor water_bottle].
Proof.
  apply (stale_redemption_loses_award visitor
           {| Rewards.balance := 60; Rewards.level := 2 |} water_bottle
           "large" "Dump site" anonymous_net (calm_outside anonymous_net)
           rewards_page_60).
  - reflexivity.
  - reflexivity.
  - right; right; reflexivity.
  - reflexivity.
  - cbn. lia.
  - intros c. reflexivity.
Defined.

(** X20. The three writes of a redemption are not undone when a later one
    fails.  If the redemption row is inserted and the ledger insert does
    not go through, the pending redemption stays although nothing was
    charged: the ledger and the accounts are as before.  If the ledger
    insert goes through and the balance update does not, the [spent]
    record stays although the balance was not reduced.  In both cases the
    page shows the failure toast, keeps the balance it showed, and drops
    its busy flag. *)
Theorem failed_redemption_leaves_earlier_writes
  (u : User) (tokens : Rewards.UserTokens) (reward : RewardItem)
  (o : outside) (p : page) :
  userTokens (rewards p) = Some tokens ->
  token_cost reward <= Rewards.balance tokens ->
  write_fault o (InsertRedeemedRewards (id u) (reward_id reward) "pending")
  = Healthy ->
  let p' := snd (handleRedeemReward (Some u) reward o p) in
  let update := UpdateBalance (id u)
                  (Rewards.balance tokens - token_cost reward)
                  (clock (tables o)) in
  (write_fault o (InsertSpent (spent_entry u reward) (generated_id o))
   <> Healthy ->
   redeemed_rewards p' = redeemed_rewards p ++ [redemption_row o u reward]
   /\ db (store p') = db (store p)
   /\ toasts p' = toasts p ++ [failed_toast]
   /\ userTokens (rewards p') = Some tokens
   /\ redeeming (rewards p') = false)
  /\ (write_fault o (InsertSpent (spent_entry u reward) (generated_id o))
      = Healthy ->
      write_fault o update <> Healthy ->
      redeemed_rewards p' = redeemed_rewards p ++ [redemption_row o u reward]
      /\ token_transactions (db (store p'))
         = token_transactions (db (store p)) ++ [spent_entry u reward]
      /\ user_tokens (db (store p')) = user_tokens (db (store p))
      /\ toasts p' = toasts p ++ [failed_toast]
      /\ userTokens (rewards p') = Some tokens
      /\ redeeming (rewards p') = false).
Proof.
  intros Htokens Hcost Hfirst p' update.
  assert (Hge : (Rewards.balance tokens <? token_cost reward) = false)
    by (apply Z.ltb_ge; exact Hcost).
  subst p' update. unfold handleRedeemReward, spent_entry. run_page.
  rewrite Htokens, Hge, Hfirst.
  cbn [store redeemed_rewards calls toasts manager rewards truthy error data ok
       redemption_id userTokens transactions redeeming db log snd].
  destruct (write_fault o (InsertSpent _ _)) eqn:Hspent.
  - split; [intros H; contradiction H; reflexivity |]. intros _ Hupdate.
    cbn [store redeemed_rewards calls toasts manager rewards truthy error data
         ok redemption_id userTokens transactions redeeming db log snd].
    destruct (write_fault o (UpdateBalance _ _ _));
      [contradiction Hupdate; reflexivity | |];
      cbn; destruct (store p) as [[ledger accounts admins] sent]; cbn;
      repeat split; rewrite Htokens; reflexivity.
  - split; [intros _ | intros H; discriminate H].
    cbn. destruct (store p) as [[ledger accounts admins] sent]; cbn.
    repeat split; rewrite Htokens; reflexivity.
  - split; [intros _ | intros H; discriminate H].
    cbn. destruct (store p) as [[ledger accounts admins] sent]; cbn.
    repeat split; rewrite Htokens; reflexivity.
Qed.

Lemma failed_redemption_leaves_earlier_writes_witness :
  let p' := snd (handleRedeemReward (Some visitor) water_bottle
                   spent_refused_outside rewards_page_60) in
  let p'' := snd (handleRedeemReward (Some visitor) water_bottle
                    update_refused_outside rewards_page_60) in
  (redeemed_rewards p'
   = redeemed_rewards rewards_page_60
     ++ [redemption_row spent_refused_outside visitor water_bottle]
   /\ db (store p') = db (store rewards_page_60)
   /\ toasts p' = toasts rewards_page_60 ++ [failed_toast]
   /\ userTokens (rewards p')
      = Some {| Rewards.balance := 60; Rewards.level := 2 |}
   /\ redeeming (rewards p') = false)
  /\ (redeemed_rewards p''
      = redeemed_rewards rewards_page_60
        ++ [redemption_row update_refused_outside visitor water_bottle]
      /\ token_transactions (db (store p''))
         = token_transactions (db (store rewards_page_60))
           ++ [spent_entry visitor water_bottle]
      /\ user_tokens (db (store p'')) = user_tokens (db (store rewards_page_60))
      /\ toasts p'' = toasts rewards_page_60 ++ [failed_toast]
      /\ userTokens (rewards p'')
         = Some {| Rewards.balance := 60; Rewards.level := 2 |}
      /\ redeeming (rewards p'') = false).
Proof.
  split.
  - destruct (failed_redemption_leaves_earlier_writes visitor
                {| Rewards.balance := 60; Rewards.level := 2 |} water_bottle
                spent_refused_outside rewards_page_60) as [Hspent _].
    + reflexivity.
    + cbn. lia.
    + reflexivity.
    + apply Hspent. cbn. discriminate.
  - destruct (failed_redemption_leaves_earlier_writes visitor
                {| Rewards.balance := 60; Rewards.level := 2 |} water_bottle
                update_refused_outside rewards_page_60) as [_ Hupdate].
    + reflexivity.
    + cbn. lia.
    + reflexivity.
    + apply Hupdate; [reflexivity | cbn; discriminate].
Defined.
